(** * Fraud-Detection-Portal: the request governor of [services/api.ts]

    A shallow embedding of the client-side API layer (rate limiting,
    retry with backoff, degradation to simulated data) and the
    properties its specification states about it.

    Conventions of the embedding.
    - A JavaScript [number] is a rational ([Q]); NaN and the infinities
      are not modelled.  Arithmetic is exact, except where the ends of a
      range depend on rounding: the weights of
      [generateFeatureImportance] are computed with the rounding of
      binary64 ([Js.round64]).  Millisecond clock values ([Date.now()])
      are integers ([Z]).
    - A string is a [string] of bytes (UTF-8); [includes] with an ASCII
      needle finds the same occurrences as on UTF-16 code units.
    - [async] code is run to completion by one caller: an [await]
      is a point where the clock advances.  The environment (elapsed
      time, [Math.random()], HTTP outcomes) is given by oracles that are
      consulted in program order.
    - [console.log / warn / error] have no effect on results and are
      left out. *)

From Stdlib Require Import ZArith QArith Qround Qpower String Ascii List Bool Lia Lqa.
From Stdlib Require Import DecimalString DecimalZ DecimalPos.
From Stdlib Require Import Sorting.Sorted Sorting.Permutation.
Import ListNotations.

Local Open Scope Z_scope.

(** ** JavaScript values *)

Module Js.

(** [a < b] and [a > b] on numbers. *)
Definition ltb (a b : Q) : bool := negb (Qle_bool b a).
Definition gtb (a b : Q) : bool := ltb b a.

(** [a === b] on numbers. *)
Definition eqb (a b : Q) : bool := Qeq_bool a b.

(** Truthiness, as [||] tests it. *)
Definition truthy_num (a : Q) : bool := negb (Qeq_bool a 0).
Definition truthy_str (s : string) : bool := negb (String.eqb s EmptyString).

(** [x || d] where [x] is a possibly missing property. *)
Definition or_num (x : option Q) (d : Q) : Q :=
  match x with
  | Some a => if truthy_num a then a else d
  | None => d
  end.

Definition or_str (x : option string) (d : string) : string :=
  match x with
  | Some s => if truthy_str s then s else d
  | None => d
  end.

Definition or_bool (x : option bool) (d : bool) : bool :=
  match x with
  | Some true => true
  | _ => d
  end.

(** [s.includes(sub)]. *)
Definition includes (s sub : string) : bool :=
  match String.index 0 sub s with
  | Some _ => true
  | None => false
  end.

(** [s.endsWith(suffix)]. *)
Definition endsWith (s suffix : string) : bool :=
  let n := String.length s in
  let k := String.length suffix in
  (k <=? n)%nat && String.eqb (String.substring (n - k) k s) suffix.

(** Decimal rendering of an integer inside a template literal. *)
Definition show (z : Z) : string := NilZero.string_of_int (Z.to_int z).

(** [Math.pow(2, n)] for a non-negative integer [n]. *)
Definition pow2 (n : Z) : Z := 2 ^ n.

(** The time value of [new Date(x)]: [x] truncated towards zero. *)
Definition time_clip (x : Q) : Z := Z.quot (Qnum x) (Zpos (Qden x)).

(** [Math.floor]. *)
Definition floor (x : Q) : Z := Qfloor x.

(** *** Binary64 *)

(** The integer nearest to [q]; of two equally near, the even one. *)
Definition rne (q : Q) : Z :=
  let f := Qfloor q in
  match Qcompare (q - inject_Z f) (1 # 2) with
  | Lt => f
  | Gt => (f + 1)%Z
  | Eq => if Z.even f then f else (f + 1)%Z
  end.

(** For [q > 0], the exponent [e] with [2^e <= q < 2^(e+1)]. *)
Definition binade (q : Q) : Z :=
  let e := (Z.log2 (Qnum q) - Z.log2 (Zpos (Qden q)))%Z in
  if Qle_bool (2 ^ e) q then e else (e - 1)%Z.

(** Rounding of a positive number to 53 significant bits, with the
    fixed spacing of the subnormal range below [2^-1022]. *)
Definition round64_pos (q : Q) : Q :=
  let e := Z.max (binade q) (-1022) in
  let ulp := (2 ^ (e - 52))%Q in
  (inject_Z (rne (q / ulp)) * ulp)%Q.

(** The binary64 number nearest to [q], ties to even (overflow to
    infinity apart). *)
Definition round64 (q : Q) : Q :=
  match Qcompare q 0 with
  | Eq => 0%Q
  | Gt => round64_pos q
  | Lt => (- round64_pos (- q))%Q
  end.

(** [q] is a binary64 number. *)
Definition binary64 (q : Q) : Prop := (round64 q == q)%Q.

(** The value of a decimal literal, and [a * b] and [a + b] on
    binary64 numbers. *)
Definition lit (q : Q) : Q := round64 q.
Definition mul (a b : Q) : Q := round64 (a * b).
Definition add (a b : Q) : Q := round64 (a + b).

End Js.

(** ** Data model *)

Record TransactionData := {
  step : Q;
  type : string;
  amount : Q;
  oldbalanceOrg : Q;
  newbalanceOrig : Q;
  oldbalanceDest : Q;
  newbalanceDest : Q
}.

Inductive RiskLevel := LOW | MEDIUM | HIGH | CRITICAL.

(** The object built by [generateFeatureImportance]: one weight per key. *)
Record FeatureImportance := {
  fi_amount : Q;
  fi_type : Q;
  fi_oldbalanceOrg : Q;
  fi_newbalanceOrig : Q;
  fi_oldbalanceDest : Q;
  fi_newbalanceDest : Q;
  fi_step : Q
}.

Record FraudResult := {
  fraudProbability : Q;
  flagged : bool;
  confidence : Q;
  riskLevel : RiskLevel;
  explanation : list string;
  featureImportance : FeatureImportance;
  modelVersion : string;
  processingTime : Q
}.

(** The body of a successful scoring response, with the properties the
    client reads; a missing property is [None] ([undefined]). *)
Record ScoreResponse := {
  r_fraudProbability : option Q;
  r_fraud_probability : option Q;
  r_flagged : option bool;
  r_confidence : option Q;
  r_modelVersion : option string;
  r_processingTime : option Q
}.

(** What [response.json()] of a 200 response can resolve to.  [null]
    is the one JSON value whose properties cannot be read: reading one
    throws a [TypeError], whose message (it differs between engines)
    comes with the value.  Of any other value the client reads the six
    properties of [ScoreResponse]; a number, a string, a boolean or an
    array has none of them and is a [JsonObject] with every property
    missing. *)
Inductive ScoreJson :=
| JsonNull (typeError : string)
| JsonObject (r : ScoreResponse).

(** The record of [getModelStats]; [lastUpdated] is kept as the time
    value that its ISO string denotes. *)
Record ModelStats := {
  accuracy : Q;
  precision : Q;
  recall : Q;
  f1Score : Q;
  totalTransactions : Z;
  fraudDetected : Z;
  falsePositives : Z;
  lastUpdated : Z
}.

(** An entry of the transaction history; [h_timestamp] is the time value
    that the ISO string denotes, [h_type] is [None] when the array
    access [types[k]] is out of range. *)
Record HistoryRecord := {
  h_id : string;
  h_timestamp : Z;
  h_amount : Q;
  h_type : option string;
  h_fraudProbability : Q;
  h_flagged : bool;
  h_riskLevel : RiskLevel
}.

(** ** Pure helpers of [services/api.ts] *)

Local Open Scope string_scope.
Local Open Scope list_scope.

Definition BASE_URL : string := "https://fraud-detection-backend-9ssq.onrender.com".

Definition MIN_REQUEST_INTERVAL : Z := 2000.

Definition getRiskLevel (probability : Q) : RiskLevel :=
  if Js.ltb probability 0.25 then LOW
  else if Js.ltb probability 0.5 then MEDIUM
  else if Js.ltb probability 0.8 then HIGH
  else CRITICAL.

(** [explanations.push(s)] guarded by [c]. *)
Definition push_if (c : bool) (s : string) (explanations : list string) : list string :=
  if c then explanations ++ [s] else explanations.

Definition generateExplanation (data : TransactionData) (probability : Q) : list string :=
  let explanations := [] in
  let explanations :=
    push_if (Js.gtb probability 0.7)
      "🚨 High fraud probability detected" explanations in
  let explanations :=
    push_if (Js.gtb (amount data) 10000)
      "💰 Large transaction amount increases risk" explanations in
  let explanations :=
    push_if (String.eqb (type data) "CASH_OUT" || String.eqb (type data) "TRANSFER")
      "🔄 Transaction type commonly associated with fraud" explanations in
  let explanations :=
    push_if (Js.eqb (oldbalanceOrg data) 0 && Js.eqb (newbalanceOrig data) 0)
      "⚠️ Suspicious balance patterns detected" explanations in
  let explanations :=
    push_if (Js.gtb (step data) 500)
      "🕐 Transaction occurred during high-risk time period" explanations in
  let explanations :=
    push_if (Nat.eqb (List.length explanations) 0)
      "✅ Transaction appears normal based on ML analysis" explanations in
  explanations.

(** [arr.slice(1)]. *)
Definition slice1 {A : Type} (l : list A) : list A := List.tl l.

Definition RATE_LIMIT_WARNING : string :=
  "⚠️ API rate limit exceeded - showing simulated analysis".

(** ** The runtime: clock, module state, oracles *)

(** A thrown [Error]; only its [message] is ever inspected. *)
Record JsError := Error { message : string }.

(** What one [fetch] followed by [response.json()] can give. *)
Inductive Body (A : Type) :=
| JsonBody (payload : A)        (* [response.json()] resolves *)
| BadBody (msg : string).       (* [response.json()] rejects with [msg] *)

Inductive FetchOutcome (A : Type) :=
| NetworkError (msg : string)   (* [fetch] itself rejects with [msg] *)
| Response (status : Z) (statusText : string) (body : Body A).

Arguments JsonBody {A} payload.
Arguments BadBody {A} msg.
Arguments NetworkError {A} msg.
Arguments Response {A} status statusText body.

(** [response.ok]. *)
Definition ok (status : Z) : bool := (200 <=? status)%Z && (status <=? 299)%Z.

(** What the caller can observe of a run, in program order. *)
Inductive Event :=
| Slept (delay : Z)             (* [setTimeout(resolve, delay)] awaited *)
| Dispatched (at_time : Z)      (* [lastRequestTime = Date.now()] *)
| Fetched (at_time : Z).        (* a [fetch] was started *)

Record World := {
  clock : Z;                    (* the value [Date.now()] would give *)
  lastRequestTime : Z;          (* the module-level variable *)
  lag_pos : nat;                (* oracle cursors *)
  rand_pos : nat;
  net_pos : nat;
  events : list Event           (* newest first *)
}.

Definition initial_world (start : Z) : World :=
  {| clock := start; lastRequestTime := 0;
     lag_pos := 0; rand_pos := 0; net_pos := 0; events := [] |}.

Inductive Outcome (A : Type) :=
| Returned (a : A)
| Raised (e : JsError).

Arguments Returned {A} a.
Arguments Raised {A} e.

Definition M (A : Type) : Type := World -> Outcome A * World.

Definition ret {A} (a : A) : M A := fun w => (Returned a, w).

Definition throw {A} (e : JsError) : M A := fun w => (Raised e, w).

Definition bind {A B} (c : M A) (k : A -> M B) : M B :=
  fun w =>
    match c w with
    | (Returned a, w') => k a w'
    | (Raised e, w') => (Raised e, w')
    end.

(** [try { c } catch (error) { h error }]. *)
Definition try_catch {A} (c : M A) (h : JsError -> M A) : M A :=
  fun w =>
    match c w with
    | (Returned a, w') => (Returned a, w')
    | (Raised e, w') => h e w'
    end.

Declare Scope js_scope.
Delimit Scope js_scope with js.
Notation "'let*' x ':=' c 'in' k" := (bind c (fun x => k))
  (at level 10, x name, c at level 100, k at level 200) : js_scope.
Notation "c ';;' k" := (bind c (fun _ => k))
  (at level 100, k at level 200, right associativity) : js_scope.

Local Open Scope js_scope.

Definition sevenDays : Q := (7 * 24 * 60 * 60 * 1000)%Q.

Definition types : list string := ["TRANSFER"; "CASH_OUT"; "PAYMENT"; "CASH_IN"; "DEBIT"].

Definition fallbackStats (now : Z) : ModelStats :=
  {| accuracy := 0.94; precision := 0.89; recall := 0.92; f1Score := 0.905;
     totalTransactions := 15847; fraudDetected := 1247; falsePositives := 89;
     lastUpdated := now |}.

(** The test both [retryWithBackoff] and [checkFraud] apply to a caught
    error: [error.message?.includes('429') ||
    error.message?.includes('Too Many Requests')]. *)
Definition isRateLimitError (error : JsError) : bool :=
  Js.includes (message error) "429" || Js.includes (message error) "Too Many Requests".

(** Descending order of time values, the comparator given to [sort]:
    [a] may stay before [b] when [cmp(a, b) <= 0]. *)
Definition newer_first (a b : HistoryRecord) : bool :=
  (h_timestamp b - h_timestamp a <=? 0)%Z.

(** [Array.prototype.sort] is stable; insertion from the right keeps the
    order of elements that compare equal. *)
Fixpoint sort_insert (x : HistoryRecord) (l : list HistoryRecord) : list HistoryRecord :=
  match l with
  | [] => [x]
  | y :: l' => if newer_first x y then x :: y :: l' else y :: sort_insert x l'
  end.

Definition sort_history (l : list HistoryRecord) : list HistoryRecord :=
  List.fold_right sort_insert [] l.

Section Api.

(** The environment: time that passes at each point where the clock
    can advance, the results of [Math.random()], and the outcomes of
    the requests to each endpoint, all in the order of their use. *)
Variable lag_src : nat -> Z.
Variable random_src : nat -> Q.
Variable score_src : nat -> FetchOutcome ScoreJson.
Variable stats_src : nat -> FetchOutcome ModelStats.
Variable history_src : nat -> FetchOutcome (list HistoryRecord).

(** *** Primitives *)

Definition elapse (at_least : Z) : M unit := fun w =>
  (Returned tt,
   {| clock := clock w + at_least + lag_src (lag_pos w);
      lastRequestTime := lastRequestTime w;
      lag_pos := S (lag_pos w); rand_pos := rand_pos w; net_pos := net_pos w;
      events := events w |}).

Definition emit (e : Event) : M unit := fun w =>
  (Returned tt,
   {| clock := clock w; lastRequestTime := lastRequestTime w;
      lag_pos := lag_pos w; rand_pos := rand_pos w; net_pos := net_pos w;
      events := e :: events w |}).

(** [Date.now()]: some time has passed since the clock was last looked at. *)
Definition Date_now : M Z :=
  elapse 0 ;; fun w => (Returned (clock w), w).

(** [await new Promise(resolve => setTimeout(resolve, delay))]. *)
Definition sleep (delay : Z) : M unit :=
  emit (Slept delay) ;; elapse delay.

Definition Math_random : M Q := fun w =>
  (Returned (random_src (rand_pos w)),
   {| clock := clock w; lastRequestTime := lastRequestTime w;
      lag_pos := lag_pos w; rand_pos := S (rand_pos w); net_pos := net_pos w;
      events := events w |}).

Definition get_lastRequestTime : M Z := fun w => (Returned (lastRequestTime w), w).

Definition set_lastRequestTime (t : Z) : M unit := fun w =>
  (Returned tt,
   {| clock := clock w; lastRequestTime := t;
      lag_pos := lag_pos w; rand_pos := rand_pos w; net_pos := net_pos w;
      events := Dispatched t :: events w |}).

(** [await fetch(...)]: the request is started, time passes, and the
    next outcome of the endpoint is delivered. *)
Definition fetch {A} (src : nat -> FetchOutcome A) : M (FetchOutcome A) :=
  let* t := (fun w => (Returned (clock w), w)) in
  emit (Fetched t) ;;
  elapse 0 ;;
  fun w =>
    (Returned (src (net_pos w)),
     {| clock := clock w; lastRequestTime := lastRequestTime w;
        lag_pos := lag_pos w; rand_pos := rand_pos w; net_pos := S (net_pos w);
        events := events w |}).

(** [await response.json()]. *)
Definition json {A} (body : Body A) : M A :=
  match body with
  | JsonBody payload => ret payload
  | BadBody msg => throw (Error msg)
  end.

(** [const response = await fetch(...)], ready for [response.status],
    [response.statusText] and [response.json()]. *)
Definition await_fetch {A} (src : nat -> FetchOutcome A) : M (Z * string * Body A) :=
  let* outcome := fetch src in
  match outcome with
  | NetworkError msg => throw (Error msg)
  | Response status statusText body => ret (status, statusText, body)
  end.

(** *** [retryWithBackoff] *)

(** The body of the [for] loop at index [i]; [fuel] counts the
    iterations that remain, [maxRetries - i]. *)
Fixpoint retry_loop {A} (fn : M A) (maxRetries : nat) (baseDelay : Z)
         (fuel : nat) (i : nat) : M A :=
  match fuel with
  | O => throw (Error "Max retries exceeded")
  | S fuel' =>
      try_catch fn (fun error =>
        if (Z.of_nat i =? Z.of_nat maxRetries - 1)%Z then throw error
        else
          let isRateLimit := isRateLimitError error in
          let delay :=
            if isRateLimit then (baseDelay * Js.pow2 (Z.of_nat i + 1))%Z
            else (baseDelay * Js.pow2 (Z.of_nat i))%Z in
          sleep delay ;;
          retry_loop fn maxRetries baseDelay fuel' (S i))
  end.

Definition retryWithBackoff {A} (fn : M A) (maxRetries : nat) (baseDelay : Z) : M A :=
  retry_loop fn maxRetries baseDelay maxRetries 0.

(** *** [generateFeatureImportance] *)

Definition generateFeatureImportance (data : TransactionData) : M FeatureImportance :=
  let* r1 := Math_random in
  let* r2 := Math_random in
  let* r3 := Math_random in
  let* r4 := Math_random in
  let* r5 := Math_random in
  let* r6 := Math_random in
  let* r7 := Math_random in
  ret {| fi_amount := Js.add (Js.mul r1 (Js.lit 0.3)) (Js.lit 0.2);
         fi_type := Js.add (Js.mul r2 (Js.lit 0.25)) (Js.lit 0.15);
         fi_oldbalanceOrg := Js.add (Js.mul r3 (Js.lit 0.2)) (Js.lit 0.1);
         fi_newbalanceOrig := Js.add (Js.mul r4 (Js.lit 0.2)) (Js.lit 0.1);
         fi_oldbalanceDest := Js.add (Js.mul r5 (Js.lit 0.15)) (Js.lit 0.05);
         fi_newbalanceDest := Js.add (Js.mul r6 (Js.lit 0.15)) (Js.lit 0.05);
         fi_step := Js.add (Js.mul r7 (Js.lit 0.1)) (Js.lit 0.05) |}.

(** *** [checkFraud] *)

(** The function handed to [retryWithBackoff]: one HTTP attempt. *)
Definition score_attempt (transactionData : TransactionData) : M ScoreJson :=
  let* response := await_fetch score_src in
  let '(status, statusText, body) := response in
  if (status =? 429)%Z then
    throw (Error "429 Too Many Requests - Rate limit exceeded")
  else if negb (ok status) then
    throw (Error ("API request failed: " ++ Js.show status ++ " " ++ statusText))
  else json body.

(** [result.fraudProbability || result.fraud_probability || 0]. *)
Definition response_probability (result : ScoreResponse) : Q :=
  Js.or_num (r_fraudProbability result) (Js.or_num (r_fraud_probability result) 0).

(** The object literal returned after a successful request.  Its first
    property reads [result.fraudProbability]: on [null] that throws,
    before any other property is evaluated. *)
Definition enhance (transactionData : TransactionData) (result : ScoreJson)
  : M FraudResult :=
  match result with
  | JsonNull typeError => throw (Error typeError)
  | JsonObject result =>
      let fraudProbability_ := response_probability result in
      let flagged_ := Js.or_bool (r_flagged result) (Js.gtb (response_probability result) 0.5) in
      let* confidence_ :=
        match r_confidence result with
        | Some c => if Js.truthy_num c then ret c
                    else let* r := Math_random in ret (r * 0.3 + 0.7)%Q
        | None => let* r := Math_random in ret (r * 0.3 + 0.7)%Q
        end in
      let riskLevel_ := getRiskLevel (response_probability result) in
      let explanation_ := generateExplanation transactionData (response_probability result) in
      let* featureImportance_ := generateFeatureImportance transactionData in
      let modelVersion_ := Js.or_str (r_modelVersion result) "v2.1.0" in
      let* processingTime_ :=
        match r_processingTime result with
        | Some t => if Js.truthy_num t then ret t
                    else let* r := Math_random in ret (r * 200 + 50)%Q
        | None => let* r := Math_random in ret (r * 200 + 50)%Q
        end in
      ret {| fraudProbability := fraudProbability_;
             flagged := flagged_;
             confidence := confidence_;
             riskLevel := riskLevel_;
             explanation := explanation_;
             featureImportance := featureImportance_;
             modelVersion := modelVersion_;
             processingTime := processingTime_ |}
  end.

(** The object literal returned when the retries ended on a rate limit. *)
Definition mock_analysis (transactionData : TransactionData) : M FraudResult :=
  let* r := Math_random in
  let mockProbability := (r * 0.8)%Q in
  let* featureImportance_ := generateFeatureImportance transactionData in
  let* r' := Math_random in
  ret {| fraudProbability := mockProbability;
         flagged := Js.gtb mockProbability 0.5;
         confidence := 0.85;
         riskLevel := getRiskLevel mockProbability;
         explanation :=
           RATE_LIMIT_WARNING
             :: slice1 (generateExplanation transactionData mockProbability);
         featureImportance := featureImportance_;
         modelVersion := "v2.1.0-mock";
         processingTime := (r' * 100 + 25)%Q |}.

(** The rate-limiting prologue: wait out the rest of the interval,
    then record the dispatch. *)
Definition throttle : M unit :=
  let* now := Date_now in
  let* last := get_lastRequestTime in
  let timeSinceLastRequest := (now - last)%Z in
  (if (timeSinceLastRequest <? MIN_REQUEST_INTERVAL)%Z then
     let waitTime := (MIN_REQUEST_INTERVAL - timeSinceLastRequest)%Z in
     sleep waitTime
   else ret tt) ;;
  let* t := Date_now in
  set_lastRequestTime t.

Definition checkFraud (transactionData : TransactionData) : M FraudResult :=
  throttle ;;
  try_catch
    (let* result := retryWithBackoff (score_attempt transactionData) 3 1000 in
     enhance transactionData result)
    (fun error =>
       if isRateLimitError error then mock_analysis transactionData
       else throw error).

(** *** [getModelStats] *)

(** The [try] block of the two read-only calls: [Some] is the early
    [return await response.json()], [None] falls out of the block. *)
Definition try_get {A} (src : nat -> FetchOutcome A) : M (option A) :=
  try_catch
    (let* response := await_fetch src in
     let '(status, _, body) := response in
     if ok status then
       let* payload := json body in ret (Some payload)
     else ret None)
    (fun error => ret None).

Definition getModelStats : M ModelStats :=
  let* early := try_get stats_src in
  match early with
  | Some payload => ret payload
  | None =>
      let* now := Date_now in
      ret (fallbackStats now)
  end.

(** *** [generateMockHistory] and [getTransactionHistory] *)

(** [types[k]]. *)
Definition types_at (k : Z) : option string :=
  if (k <? 0)%Z then None else List.nth_error types (Z.to_nat k).

(** The [for] loop from index [i]; [fuel] bounds the iterations that
    remain. *)
Fixpoint mock_loop (limit : Z) (fuel : nat) (i : Z) (history : list HistoryRecord)
  : M (list HistoryRecord) :=
  match fuel with
  | O => ret history
  | S fuel' =>
      if (i <? limit)%Z then
        let* fraudProb := Math_random in
        let* now_id := Date_now in
        let* now_ts := Date_now in
        let* r_ts := Math_random in
        let* r_amount := Math_random in
        let* r_type := Math_random in
        mock_loop limit fuel' (i + 1)%Z
          (history ++
           [ {| h_id := "tx_" ++ Js.show now_id ++ "_" ++ Js.show i;
                h_timestamp := Js.time_clip (inject_Z now_ts - r_ts * sevenDays)%Q;
                h_amount := (r_amount * 50000 + 100)%Q;
                h_type :=
                  types_at (Js.floor (r_type * inject_Z (Z.of_nat (List.length types))));
                h_fraudProbability := fraudProb;
                h_flagged := Js.gtb fraudProb 0.5;
                h_riskLevel := getRiskLevel fraudProb |} ])
      else ret history
  end.

Definition generateMockHistory (limit : Z) : M (list HistoryRecord) :=
  let* history := mock_loop limit (Z.to_nat limit) 0 [] in
  ret (sort_history history).

Definition getTransactionHistory (limit : Z) : M (list HistoryRecord) :=
  let* early := try_get history_src in
  match early with
  | Some payload => ret payload
  | None => generateMockHistory limit
  end.

(** *** A caller *)

(** One caller issuing requests one after the other, each awaited
    (and its error, if any, caught) before the next is made. *)
Fixpoint session (requests : list TransactionData) : M (list (Outcome FraudResult)) :=
  match requests with
  | [] => ret []
  | transactionData :: rest =>
      fun w =>
        let '(o, w') := checkFraud transactionData w in
        (let* os := session rest in ret (o :: os)) w'
  end.


(** ** Vocabulary of the statements *)

(** The world a computation leaves behind. *)
Definition after {A} (c : M A) (w : World) : World := snd (c w).

(** The HTTP status of an outcome, when there is a response. *)
Definition status_of {A} (o : FetchOutcome A) : option Z :=
  match o with
  | NetworkError _ => None
  | Response status _ _ => Some status
  end.

(** What a successful GET hands to the caller: the parsed body of a
    response whose status is in the 2xx range. *)
Definition served {A} (o : FetchOutcome A) : option A :=
  match o with
  | Response status _ (JsonBody payload) => if ok status then Some payload else None
  | _ => None
  end.

(** The recorded dispatch times of a run, newest first. *)
Fixpoint dispatches (evs : list Event) : list Z :=
  match evs with
  | [] => []
  | Dispatched t :: evs' => t :: dispatches evs'
  | _ :: evs' => dispatches evs'
  end.

(** The delays that were waited, newest first. *)
Fixpoint sleeps (evs : list Event) : list Z :=
  match evs with
  | [] => []
  | Slept d :: evs' => d :: sleeps evs'
  | _ :: evs' => sleeps evs'
  end.

(** Each time of a chronological list is at least the minimum interval
    after the one before it. *)
Fixpoint spaced (ts : list Z) : Prop :=
  match ts with
  | a :: (b :: _) as rest => (a + MIN_REQUEST_INTERVAL <= b)%Z /\ spaced rest
  | _ => True
  end.

(** The same, for a list that is newest first. *)
Fixpoint spaced_desc (ts : list Z) : Prop :=
  match ts with
  | b :: (a :: _) as rest => (a + MIN_REQUEST_INTERVAL <= b)%Z /\ spaced_desc rest
  | _ => True
  end.

(** Descending order of the time values of a history. *)
Definition descending (h : list HistoryRecord) : Prop :=
  StronglySorted (fun a b => (h_timestamp b <= h_timestamp a)%Z) h.

(** A record as [generateMockHistory] makes them: flag and risk level
    follow from the probability, and the time value lies in the seven
    days up to some reading [now] of the clock taken between [lo] and
    [hi]. *)
Definition synthesized (lo hi : Z) (rec : HistoryRecord) : Prop :=
  h_flagged rec = Js.gtb (h_fraudProbability rec) 0.5 /\
  h_riskLevel rec = getRiskLevel (h_fraudProbability rec) /\
  exists now : Z,
    (lo <= now <= hi)%Z /\
    (now - 604800000 <= h_timestamp rec <= now)%Z.

(** A step from [w] to [w'] that records no dispatch. *)
Definition quiet (w w' : World) : Prop :=
  lastRequestTime w' = lastRequestTime w /\
  exists later, events w' = later ++ events w /\ dispatches later = [].

(** A computation that records no dispatch, from any world. *)
Definition Quiet {A} (c : M A) : Prop := forall w, quiet w (after c w).

(** A computation that returns, from any world. *)
Definition Returns {A} (c : M A) : Prop :=
  forall w, exists a w', c w = (Returned a, w').

(** What one scoring attempt makes of the outcome it is served: the
    payload it returns or the error it throws. *)
Definition attempt_result (o : FetchOutcome ScoreJson) : Outcome ScoreJson :=
  match o with
  | NetworkError msg => Raised (Error msg)
  | Response status statusText body =>
      if (status =? 429)%Z then
        Raised (Error "429 Too Many Requests - Rate limit exceeded")
      else if negb (ok status) then
        Raised (Error ("API request failed: " ++ Js.show status ++ " " ++ statusText)%string)
      else match body with
           | JsonBody payload => Returned payload
           | BadBody msg => Raised (Error msg)
           end
  end.

(** The error of a 429 response. *)
Definition rateLimitError : JsError :=
  Error "429 Too Many Requests - Rate limit exceeded".

(** What [Date.now()] gives at the start of a call made in world [w]. *)
Definition now_at (w : World) : Z := (clock w + lag_src (lag_pos w))%Z.

(** The dispatch record is consistent: spaced, and headed by
    [lastRequestTime]. *)
Definition recorded (w : World) : Prop :=
  spaced_desc (dispatches (events w)) /\
  match dispatches (events w) with
  | t :: _ => t = lastRequestTime w
  | [] => True
  end.

(** The call made in world [w] ends on the degraded path: its retry
    loop throws, and what it throws is taken for a rate limit. *)
Definition degraded (td : TransactionData) (w : World) : Prop :=
  exists e w2,
    retryWithBackoff (score_attempt td) 3 1000 (after throttle w) = (Raised e, w2) /\
    isRateLimitError e = true.

(** ** Concrete environments *)

(** A transfer-free payment of 20000, so that exactly one explanation
    rule (the large amount) fires below probability 0.7. *)
Definition sample_payment : TransactionData :=
  {| step := 1; type := "PAYMENT"; amount := 20000;
     oldbalanceOrg := 25000; newbalanceOrig := 5000;
     oldbalanceDest := 0; newbalanceDest := 20000 |}.

(** An environment: 5 ms pass at every point where time can pass, and
    [Math.random()] always gives 0.5. *)
Definition steady_lag (k : nat) : Z := 5.
Definition steady_random (k : nat) : Q := 0.5.

Definition start_world : World := initial_world 1700000000000.

(** Endpoints that answer every request the same way. *)
Definition always_429 (k : nat) : FetchOutcome ScoreJson :=
  Response 429 "Too Many Requests" (BadBody "Unexpected end of JSON input").

Definition always_500 (k : nat) : FetchOutcome ScoreJson :=
  Response 500 "Internal Server Error" (BadBody "Unexpected end of JSON input").

(** A gateway that answers 502 and names, in its reason phrase, the
    status it got from upstream. *)
Definition always_502_naming_429 (k : nat) : FetchOutcome ScoreJson :=
  Response 502 "Bad Gateway (upstream 429)" (BadBody "Unexpected end of JSON input").

(** A backend that scores 0.9 and decides not to flag. *)
Definition unflagged_high_score (k : nat) : FetchOutcome ScoreJson :=
  Response 200 "OK"
    (JsonBody
       (JsonObject
          {| r_fraudProbability := Some 0.9%Q; r_fraud_probability := None;
             r_flagged := Some false; r_confidence := Some 0.99%Q;
             r_modelVersion := Some "v3.0.0"; r_processingTime := Some 12%Q |})).

Definition history_unreachable (k : nat) : FetchOutcome (list HistoryRecord) :=
  NetworkError "Failed to fetch".

(** ** More vocabulary: traces and results *)

(** The requests of a run and the total of the delays waited. *)
Fixpoint fetches (evs : list Event) : nat :=
  match evs with
  | [] => 0
  | Fetched _ :: evs' => S (fetches evs')
  | _ :: evs' => fetches evs'
  end.

Definition total (ds : list Z) : Z := List.fold_right Z.add 0%Z ds.

(** The new events of the attempts of one call, newest first: a
    request; or a request, the wait before it, and what came earlier.
    So a trace of this shape starts and ends with a request and has
    exactly one wait between two requests that follow each other. *)
Fixpoint interleaved (evs : list Event) : Prop :=
  match evs with
  | [Fetched _] => True
  | Fetched _ :: Slept _ :: rest => interleaved rest
  | _ => False
  end.

(** The start times of the requests that directly follow the recording
    of a dispatch, newest first: the first request of each call. *)
Fixpoint first_requests (evs : list Event) : list Z :=
  match evs with
  | [] => []
  | Fetched f :: rest =>
      match rest with
      | Dispatched _ :: _ => f :: first_requests rest
      | _ => first_requests rest
      end
  | _ :: rest => first_requests rest
  end.

(** An environment in which time stands still except in timers, and
    the timer of the fifth point where time can pass fires 1 ms
    early. *)
Definition early_timer (k : nat) : Z :=
  match k with
  | 4%nat => -1
  | _ => 0
  end.

(** An endpoint that fails once and then answers 200 with the body
    [null]. *)
Definition fail_then_null (k : nat) : FetchOutcome ScoreJson :=
  match k with
  | O => Response 503 "Service Unavailable" (BadBody "Unexpected end of JSON input")
  | S _ =>
      Response 200 "OK"
        (JsonBody (JsonNull "Cannot read properties of null (reading 'fraudProbability')"))
  end.

(** A computation that leaves the trace as it found it. *)
Definition Silent {A} (c : M A) : Prop := forall w, events (after c w) = events w.

(** A computation that returns, from any world, a value with property [P]. *)
Definition ReturnsP {A} (c : M A) (P : A -> Prop) : Prop :=
  forall w, exists a w', c w = (Returned a, w') /\ P a.

(** The ranges [generateFeatureImportance] draws its weights from, both
    ends included; an end is the binary64 number its literal denotes.
    The sums are rounded, and a draw just below 1 can land on the upper
    end. *)
Definition weights_in_range (fi : FeatureImportance) : Prop :=
  (Js.lit 0.2 <= fi_amount fi)%Q /\ (fi_amount fi <= Js.lit 0.5)%Q /\
  (Js.lit 0.15 <= fi_type fi)%Q /\ (fi_type fi <= Js.lit 0.4)%Q /\
  (Js.lit 0.1 <= fi_oldbalanceOrg fi)%Q /\ (fi_oldbalanceOrg fi <= Js.lit 0.3)%Q /\
  (Js.lit 0.1 <= fi_newbalanceOrig fi)%Q /\ (fi_newbalanceOrig fi <= Js.lit 0.3)%Q /\
  (Js.lit 0.05 <= fi_oldbalanceDest fi)%Q /\ (fi_oldbalanceDest fi <= Js.lit 0.2)%Q /\
  (Js.lit 0.05 <= fi_newbalanceDest fi)%Q /\ (fi_newbalanceDest fi <= Js.lit 0.2)%Q /\
  (Js.lit 0.05 <= fi_step fi)%Q /\ (fi_step fi <= Js.lit 0.15)%Q.

(** The largest binary64 number below 1, as every draw. *)
Definition top_random (k : nat) : Q := (1 - (1 # 9007199254740992))%Q.

(** The explanation strings of [generateExplanation]. *)
Definition EXPL_HIGH : string := "🚨 High fraud probability detected".
Definition EXPL_NORMAL : string := "✅ Transaction appears normal based on ML analysis".

(** The content of a synthesized record besides its time value. *)
Definition plausible (rec : HistoryRecord) : Prop :=
  (exists t, h_type rec = Some t /\ In t types) /\
  (100 <= h_amount rec)%Q /\ (h_amount rec < 50100)%Q /\
  (0 <= h_fraudProbability rec)%Q /\ (h_fraudProbability rec < 1)%Q.

(** An endpoint that fails once and then scores. *)
Definition fail_then_score (k : nat) : FetchOutcome ScoreJson :=
  match k with
  | O => Response 503 "Service Unavailable" (BadBody "Unexpected end of JSON input")
  | S _ =>
      Response 200 "OK"
        (JsonBody
           (JsonObject
              {| r_fraudProbability := None; r_fraud_probability := Some 0.3%Q;
                 r_flagged := None; r_confidence := None;
                 r_modelVersion := None; r_processingTime := None |}))
  end.

(** ** [FraudAnalyzer.tsx]: the component state and [handleAnalyze] *)

(** [arr.slice(0, n)] and [arr.slice(-n)] for a positive [n]. *)
Definition slice_first {A} (n : nat) (l : list A) : list A := List.firstn n l.
Definition slice_last {A} (n : nat) (l : list A) : list A :=
  List.skipn (List.length l - n) l.

Record AnalyzerState := {
  formData : TransactionData;
  a_result : option FraudResult;
  a_loading : bool;
  analysisHistory : list FraudResult;
  rateLimitWarning : bool;
  alerts : list string            (* the [alert] dialogs shown, newest first *)
}.

Definition setLoading (b : bool) (s : AnalyzerState) : AnalyzerState :=
  {| formData := formData s; a_result := a_result s; a_loading := b;
     analysisHistory := analysisHistory s; rateLimitWarning := rateLimitWarning s;
     alerts := alerts s |}.

Definition setRateLimitWarning (b : bool) (s : AnalyzerState) : AnalyzerState :=
  {| formData := formData s; a_result := a_result s; a_loading := a_loading s;
     analysisHistory := analysisHistory s; rateLimitWarning := b;
     alerts := alerts s |}.

Definition setResult (r : FraudResult) (s : AnalyzerState) : AnalyzerState :=
  {| formData := formData s; a_result := Some r; a_loading := a_loading s;
     analysisHistory := analysisHistory s; rateLimitWarning := rateLimitWarning s;
     alerts := alerts s |}.

Definition setAnalysisHistory (f : list FraudResult -> list FraudResult)
           (s : AnalyzerState) : AnalyzerState :=
  {| formData := formData s; a_result := a_result s; a_loading := a_loading s;
     analysisHistory := f (analysisHistory s); rateLimitWarning := rateLimitWarning s;
     alerts := alerts s |}.

Definition alert (msg : string) (s : AnalyzerState) : AnalyzerState :=
  {| formData := formData s; a_result := a_result s; a_loading := a_loading s;
     analysisHistory := analysisHistory s; rateLimitWarning := rateLimitWarning s;
     alerts := msg :: alerts s |}.

(** The analyzer before its first analysis, with the sample payment
    in the form. *)
Definition idle_analyzer : AnalyzerState :=
  {| formData := sample_payment; a_result := None; a_loading := false;
     analysisHistory := []; rateLimitWarning := false; alerts := [] |}.

Definition ALERT_RATE_LIMIT : string :=
  "API rate limit exceeded. Please wait a moment before trying again.".
Definition ALERT_FAILED : string := "Analysis failed. Please try again.".

(** The handler of the Analyze button; the state it is given is the
    one of the render in which the button was pressed, the state it
    returns the one after all its updates. *)
Definition handleAnalyze (s0 : AnalyzerState) : M AnalyzerState :=
  let s := setRateLimitWarning false (setLoading true s0) in
  let* s' :=
    try_catch
      (let* analysisResult := checkFraud (formData s) in
       let s := setResult analysisResult s in
       let s := setAnalysisHistory
                  (fun prev => slice_first 5 (analysisResult :: prev)) s in
       ret (if Js.includes (modelVersion analysisResult) "mock"
            then setRateLimitWarning true s else s))
      (fun error =>
         if isRateLimitError error then
           ret (setRateLimitWarning true (alert ALERT_RATE_LIMIT s))
         else ret (alert ALERT_FAILED s)) in
  ret (setLoading false s').

(** ** [Home.tsx]: the chart series kept by [handleCheck] *)

Record ChartPoint := { cp_name : string; cp_probability : Q }.

(** [(prev) => [...prev, { name: `Tx${prev.length + 1}`, probability }].slice(-10)]. *)
Definition pushChartPoint (probability : Q) (prev : list ChartPoint) : list ChartPoint :=
  slice_last 10
    (prev ++ [ {| cp_name := "Tx" ++ Js.show (Z.of_nat (List.length prev) + 1);
                  cp_probability := probability |} ]).

(** ** The charts page: [processRiskLevels] and [processAmountDistribution] *)

Record RiskSlice := { rs_name : string; rs_value : Z; rs_color : string }.

(** The [riskStats] object: one slice per level, in the order of its keys. *)
Record RiskStats := {
  st_LOW : RiskSlice; st_MEDIUM : RiskSlice; st_HIGH : RiskSlice; st_CRITICAL : RiskSlice
}.

Definition bumpSlice (x : RiskSlice) : RiskSlice :=
  {| rs_name := rs_name x; rs_value := rs_value x + 1; rs_color := rs_color x |}.

(** [riskStats[level].value += 1]. *)
Definition countLevel (riskStats : RiskStats) (level : RiskLevel) : RiskStats :=
  match level with
  | LOW => {| st_LOW := bumpSlice (st_LOW riskStats); st_MEDIUM := st_MEDIUM riskStats;
              st_HIGH := st_HIGH riskStats; st_CRITICAL := st_CRITICAL riskStats |}
  | MEDIUM => {| st_LOW := st_LOW riskStats; st_MEDIUM := bumpSlice (st_MEDIUM riskStats);
                 st_HIGH := st_HIGH riskStats; st_CRITICAL := st_CRITICAL riskStats |}
  | HIGH => {| st_LOW := st_LOW riskStats; st_MEDIUM := st_MEDIUM riskStats;
               st_HIGH := bumpSlice (st_HIGH riskStats); st_CRITICAL := st_CRITICAL riskStats |}
  | CRITICAL => {| st_LOW := st_LOW riskStats; st_MEDIUM := st_MEDIUM riskStats;
                   st_HIGH := st_HIGH riskStats;
                   st_CRITICAL := bumpSlice (st_CRITICAL riskStats) |}
  end.

Definition processRiskLevels (transactions : list HistoryRecord) : list RiskSlice :=
  let riskStats :=
    {| st_LOW := {| rs_name := "Low Risk"; rs_value := 0; rs_color := "#10b981" |};
       st_MEDIUM := {| rs_name := "Medium Risk"; rs_value := 0; rs_color := "#f59e0b" |};
       st_HIGH := {| rs_name := "High Risk"; rs_value := 0; rs_color := "#f97316" |};
       st_CRITICAL := {| rs_name := "Critical Risk"; rs_value := 0; rs_color := "#ef4444" |} |} in
  let riskStats :=
    List.fold_left (fun stats tx => countLevel stats (h_riskLevel tx)) transactions riskStats in
  [st_LOW riskStats; st_MEDIUM riskStats; st_HIGH riskStats; st_CRITICAL riskStats].

(** A band of amounts; [ar_max = None] is [Infinity]. *)
Record AmountRange := {
  ar_name : string; ar_min : Q; ar_max : option Q; ar_count : Z; ar_fraud : Z
}.

Record AmountBar := { ab_range : AmountRange; ab_fraudRate : Q }.

(** [tx.amount >= r.min && tx.amount < r.max]. *)
Definition inRange (x : Q) (r : AmountRange) : bool :=
  Qle_bool (ar_min r) x &&
  match ar_max r with
  | Some m => Js.ltb x m
  | None => true
  end.

(** [range.count += 1; if (tx.flagged) range.fraud += 1]. *)
Definition countIn (isFlagged : bool) (r : AmountRange) : AmountRange :=
  {| ar_name := ar_name r; ar_min := ar_min r; ar_max := ar_max r;
     ar_count := ar_count r + 1;
     ar_fraud := if isFlagged then ar_fraud r + 1 else ar_fraud r |}.

(** The update of the first range that [find] gives, if any. *)
Fixpoint countTransaction (tx : HistoryRecord) (ranges : list AmountRange)
  : list AmountRange :=
  match ranges with
  | [] => []
  | r :: rest =>
      if inRange (h_amount tx) r then countIn (h_flagged tx) r :: rest
      else r :: countTransaction tx rest
  end.

Definition amountRanges : list AmountRange :=
  [ {| ar_name := "$0-1K"; ar_min := 0; ar_max := Some 1000%Q; ar_count := 0; ar_fraud := 0 |};
    {| ar_name := "$1K-5K"; ar_min := 1000; ar_max := Some 5000%Q; ar_count := 0; ar_fraud := 0 |};
    {| ar_name := "$5K-10K"; ar_min := 5000; ar_max := Some 10000%Q; ar_count := 0; ar_fraud := 0 |};
    {| ar_name := "$10K-25K"; ar_min := 10000; ar_max := Some 25000%Q; ar_count := 0; ar_fraud := 0 |};
    {| ar_name := "$25K+"; ar_min := 25000; ar_max := None; ar_count := 0; ar_fraud := 0 |} ].

Definition fraudRateOf (r : AmountRange) : Q :=
  if (ar_count r >? 0)%Z
  then (inject_Z (ar_fraud r) / inject_Z (ar_count r) * 100)%Q
  else 0%Q.

Definition processAmountDistribution (transactions : list HistoryRecord) : list AmountBar :=
  let ranges :=
    List.fold_left (fun ranges tx => countTransaction tx ranges) transactions amountRanges in
  List.map (fun range => {| ab_range := range; ab_fraudRate := fraudRateOf range |}) ranges.

(** How many transactions of a list satisfy a test. *)
Definition count_if (f : HistoryRecord -> bool) (l : list HistoryRecord) : Z :=
  Z.of_nat (List.length (List.filter f l)).

(** The test "this transaction has level [l]". *)
Definition isLevel (l : RiskLevel) (tx : HistoryRecord) : bool :=
  match l, h_riskLevel tx with
  | LOW, LOW | MEDIUM, MEDIUM | HIGH, HIGH | CRITICAL, CRITICAL => true
  | _, _ => false
  end.

(** A band with the transactions of a list added to its two counters:
    those whose amount it contains, and the flagged ones among them. *)
Definition tally (r : AmountRange) (txs : list HistoryRecord) : AmountRange :=
  {| ar_name := ar_name r; ar_min := ar_min r; ar_max := ar_max r;
     ar_count := ar_count r + count_if (fun tx => inRange (h_amount tx) r) txs;
     ar_fraud := ar_fraud r
                 + count_if (fun tx => inRange (h_amount tx) r && h_flagged tx) txs |}.

(** Whether a character occurs in a string. *)
Fixpoint has_char (c : ascii) (s : string) : bool :=
  match s with
  | EmptyString => false
  | String a s' => Ascii.eqb a c || has_char c s'
  end.

(** The identifiers of a history, as far as the loop has got: each is
    "tx_", a time, "_" and an index below [i]; no two are the same. *)
Definition ids_below (i : Z) (history : list HistoryRecord) : Prop :=
  Forall (fun rec =>
            exists now j : Z,
              h_id rec = ("tx_" ++ Js.show now ++ "_" ++ Js.show j)%string /\
              (0 <= j < i)%Z) history /\
  NoDup (map h_id history).

(** Name and bounds of a band. *)
Definition bounds (r : AmountRange) : string * Q * option Q :=
  (ar_name r, ar_min r, ar_max r).

Definition sumCounts (rs : list AmountRange) : Z :=
  List.fold_right (fun r acc => ar_count r + acc)%Z 0%Z rs.

(** * Properties *)

(** ** Numbers *)

Lemma ltb_lt (a b : Q) : Js.ltb a b = true <-> (a < b)%Q.
Proof.
  unfold Js.ltb. rewrite negb_true_iff. split.
  - intros H. apply Qnot_le_lt. intros Hle.
    apply Qle_bool_iff in Hle. congruence.
  - intros H. destruct (Qle_bool b a) eqn:E; [|reflexivity].
    apply Qle_bool_iff in E. exfalso. exact (Qlt_not_le _ _ H E).
Qed.

Lemma ltb_ge (a b : Q) : Js.ltb a b = false <-> (b <= a)%Q.
Proof.
  unfold Js.ltb. rewrite negb_false_iff. apply Qle_bool_iff.
Qed.

Lemma gtb_gt (a b : Q) : Js.gtb a b = true <-> (b < a)%Q.
Proof. unfold Js.gtb. apply ltb_lt. Qed.

Lemma ltb_compat (a a' b : Q) : (a == a')%Q -> Js.ltb a b = Js.ltb a' b.
Proof.
  intros H. unfold Js.ltb. f_equal. apply Qleb_comp; [reflexivity | exact H].
Qed.

(** ** Risk bands *)

Lemma getRiskLevel_cases (p : Q) :
  ((p < 0.25)%Q /\ getRiskLevel p = LOW) \/
  ((0.25 <= p)%Q /\ (p < 0.5)%Q /\ getRiskLevel p = MEDIUM) \/
  ((0.5 <= p)%Q /\ (p < 0.8)%Q /\ getRiskLevel p = HIGH) \/
  ((0.8 <= p)%Q /\ getRiskLevel p = CRITICAL).
Proof.
  unfold getRiskLevel.
  destruct (Js.ltb p 0.25) eqn:E1.
  { left. split; [apply ltb_lt; exact E1 | reflexivity]. }
  apply ltb_ge in E1.
  destruct (Js.ltb p 0.5) eqn:E2.
  { right; left. apply ltb_lt in E2. auto. }
  apply ltb_ge in E2.
  destruct (Js.ltb p 0.8) eqn:E3.
  { right; right; left. apply ltb_lt in E3. auto. }
  apply ltb_ge in E3. right; right; right. auto.
Qed.

Ltac band_clash :=
  match goal with
  | H1 : (?a <= ?p)%Q, H2 : (?p < ?b)%Q |- _ =>
      let H := fresh in
      assert (H : (a < b)%Q) by (eapply Qle_lt_trans; eassumption);
      vm_compute in H; discriminate H
  end.

(** C4: [getRiskLevel] is a step function of the probability onto the
    four levels: below 0.25 it is LOW, from 0.25 and below 0.5 MEDIUM,
    from 0.5 and below 0.8 HIGH, from 0.8 on CRITICAL (so 0.25, 0.5 and
    0.8 themselves fall in the upper band); equal probabilities get the
    same level and each of the four levels is reached. *)
Theorem getRiskLevel_step_function :
  (forall p : Q,
      (getRiskLevel p = LOW <-> (p < 0.25)%Q) /\
      (getRiskLevel p = MEDIUM <-> (0.25 <= p)%Q /\ (p < 0.5)%Q) /\
      (getRiskLevel p = HIGH <-> (0.5 <= p)%Q /\ (p < 0.8)%Q) /\
      (getRiskLevel p = CRITICAL <-> (0.8 <= p)%Q)) /\
  (forall p q : Q, (p == q)%Q -> getRiskLevel p = getRiskLevel q) /\
  getRiskLevel 0.25 = MEDIUM /\
  getRiskLevel 0.5 = HIGH /\
  getRiskLevel 0.8 = CRITICAL /\
  (forall level : RiskLevel, exists p : Q, getRiskLevel p = level).
Proof.
  split; [|split; [|repeat split]].
  - intros p.
    assert (A1 : (0.25 <= 0.5)%Q) by (vm_compute; discriminate).
    assert (A2 : (0.5 <= 0.8)%Q) by (vm_compute; discriminate).
    assert (A3 : (0.25 <= 0.8)%Q) by (vm_compute; discriminate).
    destruct (getRiskLevel_cases p)
      as [[H E] | [[H1 [H2 E]] | [[H1 [H2 E]] | [H E]]]];
      rewrite E; repeat split; intros; try discriminate; try assumption;
      repeat match goal with H : _ /\ _ |- _ => destruct H end;
      try band_clash;
      try (assert (Hx : (0.5 <= p)%Q) by (eapply Qle_trans; eassumption); band_clash);
      try (assert (Hx : (0.25 <= p)%Q) by (eapply Qle_trans; eassumption); band_clash).
  - intros p q H. unfold getRiskLevel.
    rewrite !(ltb_compat p q) by exact H. reflexivity.
  - intros []; [exists 0%Q | exists 0.3%Q | exists 0.6%Q | exists 1%Q]; reflexivity.
Qed.

(** ** Runs of the primitives and of one attempt *)

(** One attempt consumes one outcome of the endpoint; whether it
    returns or throws, and what, is read off that outcome. *)
Lemma score_attempt_run (td : TransactionData) (w : World) :
  score_attempt td w =
  (attempt_result (score_src (net_pos w)), after (fetch score_src) w).
Proof.
  unfold score_attempt, attempt_result, await_fetch, after, fetch, bind, emit, elapse, ret, throw.
  cbn [snd net_pos].
  destruct (score_src (net_pos w)) as [msg | status statusText body]; [reflexivity|].
  destruct (status =? 429)%Z; [reflexivity|].
  destruct (negb (ok status)); [reflexivity|].
  destruct body; reflexivity.
Qed.

Lemma attempt_result_429 (o : FetchOutcome ScoreJson) :
  status_of o = Some 429%Z -> attempt_result o = Raised rateLimitError.
Proof.
  destruct o as [msg | status statusText body]; cbn; [discriminate|].
  intros H. injection H as ->. reflexivity.
Qed.

(** ** The retry loop *)

Lemma sleep_run (delay : Z) (w : World) :
  sleep delay w =
  (Returned tt,
   {| clock := clock w + delay + lag_src (lag_pos w);
      lastRequestTime := lastRequestTime w;
      lag_pos := S (lag_pos w); rand_pos := rand_pos w; net_pos := net_pos w;
      events := Slept delay :: events w |}).
Proof. reflexivity. Qed.

Lemma retry_loop_returned {A} (fn : M A) maxRetries baseDelay fuel i w a w1 :
  fn w = (Returned a, w1) ->
  retry_loop fn maxRetries baseDelay (S fuel) i w = (Returned a, w1).
Proof.
  intros Hfn. cbn [retry_loop]. unfold try_catch. rewrite Hfn. reflexivity.
Qed.

Lemma retry_loop_last_raised {A} (fn : M A) maxRetries baseDelay fuel i w e w1 :
  fn w = (Raised e, w1) ->
  Z.of_nat i = (Z.of_nat maxRetries - 1)%Z ->
  retry_loop fn maxRetries baseDelay (S fuel) i w = (Raised e, w1).
Proof.
  intros Hfn Hi. cbn [retry_loop]. unfold try_catch. rewrite Hfn.
  apply Z.eqb_eq in Hi. rewrite Hi. reflexivity.
Qed.

Lemma retry_loop_raised {A} (fn : M A) maxRetries baseDelay fuel i w e w1 :
  fn w = (Raised e, w1) ->
  Z.of_nat i <> (Z.of_nat maxRetries - 1)%Z ->
  retry_loop fn maxRetries baseDelay (S fuel) i w =
  retry_loop fn maxRetries baseDelay fuel (S i)
    (after (sleep (if isRateLimitError e
                   then baseDelay * 2 ^ (Z.of_nat i + 1)
                   else baseDelay * 2 ^ Z.of_nat i)%Z) w1).
Proof.
  intros Hfn Hi. cbn [retry_loop]. unfold try_catch at 1. rewrite Hfn.
  apply Z.eqb_neq in Hi. rewrite Hi.
  unfold bind at 1. unfold Js.pow2, after.
  destruct (isRateLimitError e); rewrite sleep_run; reflexivity.
Qed.

(** When every attempt fails with the same error, so does the loop. *)
Lemma retry_loop_constant_failure {A} (fn : M A) (e : JsError) maxRetries baseDelay :
  (forall w, exists w1, fn w = (Raised e, w1)) ->
  forall fuel i w,
    (i + S fuel = maxRetries)%nat ->
    exists w', retry_loop fn maxRetries baseDelay (S fuel) i w = (Raised e, w').
Proof.
  intros Hfn. induction fuel as [|fuel IH]; intros i w Hi.
  - destruct (Hfn w) as [w1 H1]. exists w1.
    apply retry_loop_last_raised; [exact H1 | lia].
  - destruct (Hfn w) as [w1 H1].
    rewrite (retry_loop_raised fn _ _ _ _ _ _ _ H1) by lia.
    apply IH. lia.
Qed.


(** ** Code that leaves the dispatch record alone *)

Lemma dispatches_app (a b : list Event) :
  dispatches (a ++ b) = dispatches a ++ dispatches b.
Proof.
  induction a as [|[d | t | t] a IH]; cbn [dispatches app]; try exact IH.
  - reflexivity.
  - rewrite IH. reflexivity.
Qed.

Lemma quiet_refl w : quiet w w.
Proof. split; [reflexivity | exists []; split; reflexivity]. Qed.

Lemma quiet_trans w1 w2 w3 : quiet w1 w2 -> quiet w2 w3 -> quiet w1 w3.
Proof.
  unfold quiet. intros [H1 [l1 [E1 D1]]] [H3 [l2 [E2 D2]]].
  split; [congruence|]. exists (l2 ++ l1). split.
  - rewrite E2, E1. apply app_assoc.
  - rewrite dispatches_app, D1, D2. reflexivity.
Qed.

Lemma quiet_dispatches w w' : quiet w w' -> dispatches (events w') = dispatches (events w).
Proof.
  intros [_ [later [E D]]]. rewrite E, dispatches_app, D. reflexivity.
Qed.

Lemma Quiet_ret {A} (a : A) : Quiet (ret a).
Proof. intros w. apply quiet_refl. Qed.

Lemma Quiet_throw {A} (e : JsError) : Quiet (@throw A e).
Proof. intros w. apply quiet_refl. Qed.

Lemma Quiet_bind {A B} (c : M A) (k : A -> M B) :
  Quiet c -> (forall a, Quiet (k a)) -> Quiet (bind c k).
Proof.
  intros Hc Hk w. specialize (Hc w). unfold after, bind in *.
  destruct (c w) as [[a | e] w1]; cbn [snd] in *.
  - eapply quiet_trans; [exact Hc | apply Hk].
  - exact Hc.
Qed.

Lemma Quiet_try_catch {A} (c : M A) (h : JsError -> M A) :
  Quiet c -> (forall e, Quiet (h e)) -> Quiet (try_catch c h).
Proof.
  intros Hc Hh w. specialize (Hc w). unfold after, try_catch in *.
  destruct (c w) as [[a | e] w1]; cbn [snd] in *.
  - exact Hc.
  - eapply quiet_trans; [exact Hc | apply Hh].
Qed.

Lemma Quiet_elapse d : Quiet (elapse d).
Proof. intros w. split; [reflexivity | exists []; split; reflexivity]. Qed.

Lemma Quiet_Date_now : Quiet Date_now.
Proof. intros w. split; [reflexivity | exists []; split; reflexivity]. Qed.

Lemma Quiet_sleep d : Quiet (sleep d).
Proof. intros w. split; [reflexivity | exists [Slept d]; split; reflexivity]. Qed.

Lemma Quiet_Math_random : Quiet Math_random.
Proof. intros w. split; [reflexivity | exists []; split; reflexivity]. Qed.

Lemma Quiet_fetch {A} (src : nat -> FetchOutcome A) : Quiet (fetch src).
Proof.
  intros w. split; [reflexivity | exists [Fetched (clock w)]; split; reflexivity].
Qed.

Lemma Quiet_json {A} (body : Body A) : Quiet (json body).
Proof. destruct body; [apply Quiet_ret | apply Quiet_throw]. Qed.

Create HintDb quiet.
Hint Resolve Quiet_ret Quiet_throw Quiet_elapse Quiet_Date_now Quiet_sleep
     Quiet_Math_random Quiet_fetch Quiet_json : quiet.

Ltac quiet_step :=
  match goal with
  | |- Quiet (bind _ _) => apply Quiet_bind; [| intros ?]
  | |- Quiet (try_catch _ _) => apply Quiet_try_catch; [| intros ?]
  | |- Quiet (match ?x with _ => _ end) => destruct x
  | |- Quiet _ => solve [auto with quiet]
  end.

Lemma Quiet_await_fetch {A} (src : nat -> FetchOutcome A) : Quiet (await_fetch src).
Proof. unfold await_fetch. repeat quiet_step. Qed.

Lemma Quiet_retry_loop {A} (fn : M A) maxRetries baseDelay :
  Quiet fn -> forall fuel i, Quiet (retry_loop fn maxRetries baseDelay fuel i).
Proof.
  intros Hfn. induction fuel as [|fuel IH]; intros i; cbn [retry_loop].
  - apply Quiet_throw.
  - apply Quiet_try_catch; [exact Hfn|]. intros e.
    destruct (Z.of_nat i =? Z.of_nat maxRetries - 1)%Z; [apply Quiet_throw|].
    apply Quiet_bind; [apply Quiet_sleep | intros _; apply IH].
Qed.

Lemma Quiet_score_attempt td : Quiet (score_attempt td).
Proof.
  unfold score_attempt. apply Quiet_bind; [apply Quiet_await_fetch|].
  intros [[status statusText] body]. repeat quiet_step.
Qed.

Lemma Quiet_generateFeatureImportance td : Quiet (generateFeatureImportance td).
Proof. unfold generateFeatureImportance. repeat quiet_step. Qed.

Hint Resolve Quiet_await_fetch Quiet_score_attempt Quiet_generateFeatureImportance : quiet.

Lemma Quiet_enhance td result : Quiet (enhance td result).
Proof. unfold enhance. destruct result as [msg | r]; repeat quiet_step. Qed.

Lemma Quiet_mock_analysis td : Quiet (mock_analysis td).
Proof. unfold mock_analysis. repeat quiet_step. Qed.

(** ** The rate-limiting prologue *)

(** The clock never runs backwards and no timer fires early: at each
    point where time can pass, what passes beyond the requested delay
    is not negative. *)
Hypothesis lag_nonneg : forall k, (0 <= lag_src k)%Z.

Lemma throttle_run (w : World) :
  exists w1,
    throttle w = (Returned tt, w1) /\
    (lastRequestTime w + MIN_REQUEST_INTERVAL <= lastRequestTime w1)%Z /\
    events w1 =
      Dispatched (lastRequestTime w1)
        :: (if (now_at w - lastRequestTime w <? MIN_REQUEST_INTERVAL)%Z
            then [Slept (MIN_REQUEST_INTERVAL - (now_at w - lastRequestTime w))]
            else [])
        ++ events w.
Proof.
  unfold throttle, Date_now, get_lastRequestTime, set_lastRequestTime, now_at, bind.
  cbn [elapse clock lastRequestTime lag_pos events].
  replace (clock w + 0 + lag_src (lag_pos w))%Z
    with (clock w + lag_src (lag_pos w))%Z by lia.
  unfold MIN_REQUEST_INTERVAL.
  destruct (clock w + lag_src (lag_pos w) - lastRequestTime w <? 2000)%Z eqn:E.
  - rewrite sleep_run. cbn [ret clock lastRequestTime lag_pos events elapse app].
    eexists. split; [reflexivity|]. cbn [lastRequestTime events].
    split; [|reflexivity].
    pose proof (lag_nonneg (S (lag_pos w))). pose proof (lag_nonneg (S (S (lag_pos w)))).
    pose proof (lag_nonneg (lag_pos w)). lia.
  - cbn [ret clock lastRequestTime lag_pos events elapse app].
    eexists. split; [reflexivity|]. cbn [lastRequestTime events].
    split; [|reflexivity].
    apply Z.ltb_ge in E.
    pose proof (lag_nonneg (S (lag_pos w))). lia.
Qed.

(** ** One call, then a sequence of calls *)

Lemma checkFraud_dispatch (td : TransactionData) (w : World) :
  exists t later,
    events (after (checkFraud td) w) =
      later ++ Dispatched t
        :: (if (now_at w - lastRequestTime w <? MIN_REQUEST_INTERVAL)%Z
            then [Slept (MIN_REQUEST_INTERVAL - (now_at w - lastRequestTime w))]
            else [])
        ++ events w /\
    dispatches later = [] /\
    lastRequestTime (after (checkFraud td) w) = t /\
    (lastRequestTime w + MIN_REQUEST_INTERVAL <= t)%Z.
Proof.
  destruct (throttle_run w) as [w1 [Hrun [Hgap Hev]]].
  assert (Hq : Quiet (try_catch
             (bind (retryWithBackoff (score_attempt td) 3 1000)
                   (fun result => enhance td result))
             (fun error => if isRateLimitError error then mock_analysis td
                           else throw error))).
  { apply Quiet_try_catch.
    - apply Quiet_bind.
      + apply Quiet_retry_loop, Quiet_score_attempt.
      + intros result. apply Quiet_enhance.
    - intros e. destruct (isRateLimitError e);
        [apply Quiet_mock_analysis | apply Quiet_throw]. }
  destruct (Hq w1) as [Hlast [later [Hlater Hnone]]].
  assert (Hafter : after (checkFraud td) w =
                   after (try_catch
             (bind (retryWithBackoff (score_attempt td) 3 1000)
                   (fun result => enhance td result))
             (fun error => if isRateLimitError error then mock_analysis td
                           else throw error)) w1).
  { unfold checkFraud, after. unfold bind at 1. rewrite Hrun. reflexivity. }
  exists (lastRequestTime w1), later. rewrite Hafter, Hlater, Hev.
  repeat split; [exact Hnone | exact Hlast | exact Hgap].
Qed.

Lemma checkFraud_recorded (td : TransactionData) (w : World) :
  recorded w ->
  recorded (after (checkFraud td) w) /\
  length (dispatches (events (after (checkFraud td) w))) =
  S (length (dispatches (events w))).
Proof.
  intros [Hsp Hhd].
  destruct (checkFraud_dispatch td w) as [t [later [Hev [Hnone [Hlast Hgap]]]]].
  assert (Hd : dispatches (events (after (checkFraud td) w)) =
               t :: dispatches (events w)).
  { rewrite Hev, dispatches_app, Hnone. cbn [app dispatches].
    rewrite dispatches_app.
    destruct (now_at w - lastRequestTime w <? MIN_REQUEST_INTERVAL)%Z; reflexivity. }
  unfold recorded. rewrite Hd. repeat split.
  - destruct (dispatches (events w)) as [|t0 rest] eqn:E; [exact I|].
    cbn. split; [subst t0; exact Hgap | exact Hsp].
  - symmetry. exact Hlast.
Qed.

Lemma session_after (td : TransactionData) (rest : list TransactionData) (w : World) :
  after (session (td :: rest)) w = after (session rest) (after (checkFraud td) w).
Proof.
  unfold after. cbn [session].
  destruct (checkFraud td w) as [o w1]. cbn [snd]. unfold bind.
  destruct (session rest w1) as [[os | e] w2]; reflexivity.
Qed.

Lemma session_recorded (requests : list TransactionData) :
  forall w, recorded w ->
    recorded (after (session requests) w) /\
    length (dispatches (events (after (session requests) w))) =
    (length requests + length (dispatches (events w)))%nat.
Proof.
  induction requests as [|td rest IH]; intros w Hw.
  - split; [exact Hw | reflexivity].
  - rewrite session_after.
    destruct (checkFraud_recorded td w Hw) as [H1 L1].
    destruct (IH _ H1) as [H2 L2]. split; [exact H2|].
    rewrite L2, L1. cbn [length]. lia.
Qed.

Lemma spaced_snoc (l : list Z) (a b : Z) :
  spaced (l ++ [a]) -> (a + MIN_REQUEST_INTERVAL <= b)%Z -> spaced ((l ++ [a]) ++ [b]).
Proof.
  induction l as [|x l IH]; intros Hs Hab.
  - cbn. auto.
  - destruct l as [|y l'].
    + cbn in *. destruct Hs as [Hxa _]. auto.
    + cbn [app] in *. destruct Hs as [Hxy Hs]. split; [exact Hxy|].
      apply IH; assumption.
Qed.

Lemma spaced_desc_rev (l : list Z) : spaced_desc l -> spaced (rev l).
Proof.
  induction l as [|b l IH]; intros H; [exact I|].
  destruct l as [|a l']; [exact I|].
  destruct H as [Hab Hrest]. specialize (IH Hrest).
  change (rev (b :: a :: l')) with ((rev l' ++ [a]) ++ [b]).
  apply spaced_snoc; [exact IH | exact Hab].
Qed.


(** ** The two ways a call can end after its attempts *)

Lemma throttle_returns (w : World) : throttle w = (Returned tt, after throttle w).
Proof.
  unfold after, throttle, Date_now, get_lastRequestTime, set_lastRequestTime, bind.
  cbn [elapse clock lastRequestTime].
  destruct (_ <? _)%Z; reflexivity.
Qed.

Lemma throttle_net_pos (w : World) : net_pos (after throttle w) = net_pos w.
Proof.
  unfold after, throttle, Date_now, get_lastRequestTime, set_lastRequestTime, bind.
  cbn [elapse clock lastRequestTime].
  destruct (_ <? _)%Z; reflexivity.
Qed.

Lemma checkFraud_on_failure (td : TransactionData) (w w2 : World) (e : JsError) :
  retryWithBackoff (score_attempt td) 3 1000 (after throttle w) = (Raised e, w2) ->
  checkFraud td w =
  if isRateLimitError e then mock_analysis td w2 else (Raised e, w2).
Proof.
  intros H. unfold checkFraud. unfold bind at 1. rewrite throttle_returns.
  unfold try_catch. unfold bind at 1. rewrite H.
  destruct (isRateLimitError e); reflexivity.
Qed.

(** Three failed attempts: the loop throws what the third one threw. *)
Lemma retry_three_failures (td : TransactionData) (w : World) (e0 e1 e2 : JsError) :
  attempt_result (score_src (net_pos w)) = Raised e0 ->
  attempt_result (score_src (S (net_pos w))) = Raised e1 ->
  attempt_result (score_src (S (S (net_pos w)))) = Raised e2 ->
  exists w', retryWithBackoff (score_attempt td) 3 1000 w = (Raised e2, w').
Proof.
  intros H0 H1 H2. unfold retryWithBackoff.
  rewrite (retry_loop_raised (score_attempt td) 3 1000 2 0 w e0 (after (fetch score_src) w));
    [| rewrite score_attempt_run, H0; reflexivity | lia].
  match goal with |- context [retry_loop _ _ _ _ _ ?w1] => set (wa := w1) end.
  assert (Ha : net_pos wa = S (net_pos w)) by reflexivity.
  rewrite (retry_loop_raised (score_attempt td) 3 1000 1 1 wa e1 (after (fetch score_src) wa));
    [| rewrite score_attempt_run, Ha, H1; reflexivity | lia].
  match goal with |- context [retry_loop _ _ _ _ _ ?w1] => set (wb := w1) end.
  assert (Hb : net_pos wb = S (S (net_pos w))).
  { unfold wb. cbn. unfold wa. reflexivity. }
  exists (after (fetch score_src) wb).
  apply retry_loop_last_raised; [| reflexivity].
  rewrite score_attempt_run, Hb, H2. reflexivity.
Qed.

(** A failure that is not taken for a rate limit reaches the caller. *)
Lemma checkFraud_propagates (td : TransactionData) (w : World) (e0 e1 e2 : JsError) :
  attempt_result (score_src (net_pos w)) = Raised e0 ->
  attempt_result (score_src (S (net_pos w))) = Raised e1 ->
  attempt_result (score_src (S (S (net_pos w)))) = Raised e2 ->
  isRateLimitError e2 = false ->
  exists w', checkFraud td w = (Raised e2, w').
Proof.
  intros H0 H1 H2 Hno.
  destruct (retry_three_failures td (after throttle w) e0 e1 e2) as [w2 Hr];
    rewrite ?throttle_net_pos; try assumption.
  exists w2. rewrite (checkFraud_on_failure td w w2 e2 Hr), Hno. reflexivity.
Qed.

Lemma bind_run {A B} (c : M A) (k : A -> M B) (w w1 : World) (a : A) :
  c w = (Returned a, w1) -> bind c k w = k a w1.
Proof. intros H. unfold bind. rewrite H. reflexivity. Qed.

Lemma Math_random_run (w : World) :
  Math_random w = (Returned (random_src (rand_pos w)), after Math_random w).
Proof. reflexivity. Qed.

Lemma Returns_ret {A} (a : A) : Returns (ret a).
Proof. intros w. exists a, w. reflexivity. Qed.

Lemma Returns_bind {A B} (c : M A) (k : A -> M B) :
  Returns c -> (forall a, Returns (k a)) -> Returns (bind c k).
Proof.
  intros Hc Hk w. destruct (Hc w) as [a [w1 E]].
  rewrite (bind_run c k w w1 a E). apply Hk.
Qed.

Lemma Returns_Math_random : Returns Math_random.
Proof. intros w. do 2 eexists. apply Math_random_run. Qed.

Lemma Returns_Date_now : Returns Date_now.
Proof. intros w. do 2 eexists. reflexivity. Qed.

Lemma Returns_generateFeatureImportance td : Returns (generateFeatureImportance td).
Proof.
  unfold generateFeatureImportance.
  repeat (apply Returns_bind; [apply Returns_Math_random | intros ?]).
  apply Returns_ret.
Qed.

Lemma mock_analysis_run (td : TransactionData) (w : World) :
  exists fi pt w',
    mock_analysis td w =
    (Returned
       {| fraudProbability := (random_src (rand_pos w) * 0.8)%Q;
          flagged := Js.gtb (random_src (rand_pos w) * 0.8)%Q 0.5;
          confidence := 0.85;
          riskLevel := getRiskLevel (random_src (rand_pos w) * 0.8)%Q;
          explanation :=
            RATE_LIMIT_WARNING
              :: slice1 (generateExplanation td (random_src (rand_pos w) * 0.8)%Q);
          featureImportance := fi;
          modelVersion := "v2.1.0-mock";
          processingTime := pt |}, w').
Proof.
  unfold mock_analysis.
  rewrite (bind_run _ _ _ _ _ (Math_random_run w)).
  destruct (Returns_generateFeatureImportance td (after Math_random w)) as [fi [w2 E]].
  rewrite (bind_run _ _ _ _ _ E).
  rewrite (bind_run _ _ _ _ _ (Math_random_run w2)).
  unfold ret. do 3 eexists. reflexivity.
Qed.

Lemma Returns_placeholder (x : option Q) (a b : Q) :
  Returns (match x with
           | Some c => if Js.truthy_num c then ret c
                       else bind Math_random (fun r => ret (r * a + b)%Q)
           | None => bind Math_random (fun r => ret (r * a + b)%Q)
           end).
Proof.
  destruct x as [c|]; [destruct (Js.truthy_num c)|];
    try apply Returns_ret;
    (apply Returns_bind; [apply Returns_Math_random | intros ?; apply Returns_ret]).
Qed.

Lemma enhance_run (td : TransactionData) (result : ScoreResponse) (w : World) :
  exists c fi pt w',
    enhance td (JsonObject result) w =
    (Returned
       {| fraudProbability := response_probability result;
          flagged := Js.or_bool (r_flagged result)
                                (Js.gtb (response_probability result) 0.5);
          confidence := c;
          riskLevel := getRiskLevel (response_probability result);
          explanation := generateExplanation td (response_probability result);
          featureImportance := fi;
          modelVersion := Js.or_str (r_modelVersion result) "v2.1.0";
          processingTime := pt |}, w').
Proof.
  unfold enhance.
  destruct (Returns_placeholder (r_confidence result) 0.3 0.7 w) as [c [w1 E1]].
  rewrite (bind_run _ _ _ _ _ E1).
  destruct (Returns_generateFeatureImportance td w1) as [fi [w2 E2]].
  rewrite (bind_run _ _ _ _ _ E2).
  destruct (Returns_placeholder (r_processingTime result) 200 50 w2) as [pt [w3 E3]].
  rewrite (bind_run _ _ _ _ _ E3).
  unfold ret. do 4 eexists. reflexivity.
Qed.

Lemma checkFraud_on_success (td : TransactionData) (w w2 : World) (r : ScoreResponse) :
  retryWithBackoff (score_attempt td) 3 1000 (after throttle w)
  = (Returned (JsonObject r), w2) ->
  checkFraud td w = enhance td (JsonObject r) w2.
Proof.
  intros H. unfold checkFraud. unfold bind at 1. rewrite throttle_returns.
  unfold try_catch. unfold bind at 1. rewrite H.
  destruct (enhance_run td r w2) as [c [fi [pt [w' E]]]]. rewrite E. reflexivity.
Qed.

(** A 200 response whose body is [null]: the normalization throws, and
    the [catch] treats that error like any other. *)
Lemma checkFraud_on_null (td : TransactionData) (w w2 : World) (msg : string) :
  retryWithBackoff (score_attempt td) 3 1000 (after throttle w)
  = (Returned (JsonNull msg), w2) ->
  checkFraud td w =
  if isRateLimitError (Error msg) then mock_analysis td w2
  else (Raised (Error msg), w2).
Proof.
  intros H. unfold checkFraud. unfold bind at 1. rewrite throttle_returns.
  unfold try_catch. unfold bind at 1. rewrite H.
  cbn [enhance]. unfold throw.
  destruct (isRateLimitError (Error msg)); reflexivity.
Qed.

(** What the normalization makes of the response's [flagged]: the
    result is flagged when the response says so, and also whenever the
    probability exceeds 0.5. *)
Lemma normalized_flag (td : TransactionData) (w w2 : World) (r : ScoreResponse) :
  retryWithBackoff (score_attempt td) 3 1000 (after throttle w)
  = (Returned (JsonObject r), w2) ->
  exists res w',
    checkFraud td w = (Returned res, w') /\
    flagged res =
    match r_flagged r with
    | Some true => true
    | _ => Js.gtb (response_probability r) 0.5
    end.
Proof.
  intros H. rewrite (checkFraud_on_success td w w2 r H).
  destruct (enhance_run td r w2) as [c [fi [pt [w' E]]]].
  eexists. exists w'. split; [exact E|]. reflexivity.
Qed.

Lemma generateExplanation_nonempty (td : TransactionData) (p : Q) :
  generateExplanation td p <> [].
Proof.
  unfold generateExplanation, push_if.
  destruct (Js.gtb p 0.7), (Js.gtb (amount td) 10000),
    (String.eqb (type td) "CASH_OUT" || String.eqb (type td) "TRANSFER"),
    (Js.eqb (oldbalanceOrg td) 0 && Js.eqb (newbalanceOrig td) 0),
    (Js.gtb (step td) 500); cbn; discriminate.
Qed.

Lemma mock_probability_range (r : Q) :
  (0 <= r)%Q -> (r < 1)%Q -> (0 <= r * 0.8)%Q /\ (r * 0.8 < 0.8)%Q.
Proof. intros H0 H1. split; lra. Qed.

(** ** The degraded path *)

Lemma all_429_degraded (td : TransactionData) (w : World) :
  (forall k, status_of (score_src k) = Some 429%Z) -> degraded td w.
Proof.
  intros H429.
  destruct (retry_three_failures td (after throttle w)
              rateLimitError rateLimitError rateLimitError) as [w2 Hr];
    try (apply attempt_result_429, H429).
  exists rateLimitError, w2. split; [exact Hr | reflexivity].
Qed.

Lemma degraded_run (td : TransactionData) (w : World) :
  degraded td w ->
  exists r fi pt w',
    checkFraud td w =
    (Returned
       {| fraudProbability := (random_src r * 0.8)%Q;
          flagged := Js.gtb (random_src r * 0.8)%Q 0.5;
          confidence := 0.85;
          riskLevel := getRiskLevel (random_src r * 0.8)%Q;
          explanation :=
            RATE_LIMIT_WARNING
              :: slice1 (generateExplanation td (random_src r * 0.8)%Q);
          featureImportance := fi;
          modelVersion := "v2.1.0-mock";
          processingTime := pt |}, w').
Proof.
  intros [e [w2 [Hr He]]].
  rewrite (checkFraud_on_failure td w w2 e Hr), He.
  destruct (mock_analysis_run td w2) as [fi [pt [w' E]]].
  exists (rand_pos w2), fi, pt, w'. exact E.
Qed.

(** C2: when every HTTP attempt is answered with status 429, the call
    raises nothing: it returns a result whose probability is in
    [0, 0.8), whose [flagged] is [probability > 0.5], whose risk level
    is the band of that probability, whose confidence is 0.85, whose
    model version ends in "-mock", and whose first explanation is the
    rate-limit warning. *)
Theorem all_429_returns_mock (td : TransactionData) (w : World) :
  (forall k, (0 <= random_src k)%Q /\ (random_src k < 1)%Q) ->
  (forall k, status_of (score_src k) = Some 429%Z) ->
  exists res w',
    checkFraud td w = (Returned res, w') /\
    (0 <= fraudProbability res)%Q /\
    (fraudProbability res < 0.8)%Q /\
    flagged res = Js.gtb (fraudProbability res) 0.5 /\
    riskLevel res = getRiskLevel (fraudProbability res) /\
    confidence res = 0.85%Q /\
    Js.endsWith (modelVersion res) "-mock" = true /\
    List.hd_error (explanation res) = Some RATE_LIMIT_WARNING.
Proof.
  intros Hrand H429.
  destruct (degraded_run td w (all_429_degraded td w H429)) as [r [fi [pt [w' E]]]].
  destruct (Hrand r) as [H0 H1].
  destruct (mock_probability_range _ H0 H1) as [Hlo Hhi].
  eexists. exists w'. split; [exact E|].
  cbn [fraudProbability flagged riskLevel confidence modelVersion explanation].
  repeat split; assumption || reflexivity.
Qed.

(** C5, as the code has it: on the degraded path the explanation list
    is the rate-limit warning followed by the derived explanations
    without their first entry, so the warning takes the place of the
    first derived explanation and the rest follow in order. *)
Theorem degraded_explanation_replaces_first (td : TransactionData) (w : World) :
  degraded td w ->
  exists res w' first rest,
    checkFraud td w = (Returned res, w') /\
    generateExplanation td (fraudProbability res) = first :: rest /\
    explanation res = RATE_LIMIT_WARNING :: rest.
Proof.
  intros Hd.
  destruct (degraded_run td w Hd) as [r [fi [pt [w' E]]]].
  destruct (generateExplanation td (random_src r * 0.8)%Q) as [|first rest] eqn:G.
  { exfalso. exact (generateExplanation_nonempty _ _ G). }
  eexists. exists w', first, rest. split; [exact E|].
  cbn [fraudProbability explanation]. rewrite G. split; reflexivity.
Qed.

(** C10: on the degraded path the risk level is LOW, MEDIUM or HIGH,
    never CRITICAL, and the result carries the "-mock" version. *)
Theorem degraded_never_critical (td : TransactionData) (w : World) :
  (forall k, (0 <= random_src k)%Q /\ (random_src k < 1)%Q) ->
  degraded td w ->
  exists res w',
    checkFraud td w = (Returned res, w') /\
    Js.endsWith (modelVersion res) "-mock" = true /\
    riskLevel res <> CRITICAL /\
    (riskLevel res = LOW \/ riskLevel res = MEDIUM \/ riskLevel res = HIGH).
Proof.
  intros Hrand Hd.
  destruct (degraded_run td w Hd) as [r [fi [pt [w' E]]]].
  destruct (Hrand r) as [H0 H1].
  destruct (mock_probability_range _ H0 H1) as [_ Hhi].
  eexists. exists w'. split; [exact E|].
  cbn [riskLevel modelVersion]. split; [reflexivity|].
  destruct (getRiskLevel_cases (random_src r * 0.8)%Q)
    as [[_ L] | [[_ [_ L]] | [[_ [_ L]] | [Hge L]]]]; rewrite L.
  - split; [discriminate | auto].
  - split; [discriminate | auto].
  - split; [discriminate | auto].
  - exfalso. exact (Qlt_not_le _ _ Hhi Hge).
Qed.

(** ** Sorting the history *)

Lemma sort_insert_perm (x : HistoryRecord) (l : list HistoryRecord) :
  Permutation (sort_insert x l) (x :: l).
Proof.
  induction l as [|y l IH]; cbn [sort_insert]; [apply Permutation_refl|].
  destruct (newer_first x y); [apply Permutation_refl|].
  eapply perm_trans; [apply perm_skip, IH | apply perm_swap].
Qed.

Lemma sort_history_perm (l : list HistoryRecord) : Permutation (sort_history l) l.
Proof.
  induction l as [|x l IH]; cbn; [apply perm_nil|].
  eapply perm_trans; [apply sort_insert_perm | apply perm_skip, IH].
Qed.

Lemma sort_insert_descending (x : HistoryRecord) (l : list HistoryRecord) :
  descending l -> descending (sort_insert x l).
Proof.
  unfold descending. induction l as [|y l IH]; intros Hl; cbn [sort_insert].
  - constructor; constructor.
  - inversion Hl as [|? ? Hl' Hy]; subst.
    destruct (newer_first x y) eqn:E; unfold newer_first in E.
    + apply Z.leb_le in E. constructor; [exact Hl|].
      constructor; [lia|].
      eapply Forall_impl; [|exact Hy]. cbn. intros z Hz. lia.
    + apply Z.leb_gt in E. constructor; [apply IH; exact Hl'|].
      eapply Permutation_Forall; [apply Permutation_sym, sort_insert_perm|].
      constructor; [lia | exact Hy].
Qed.

Lemma sort_history_descending (l : list HistoryRecord) : descending (sort_history l).
Proof.
  induction l as [|x l IH]; cbn; [constructor|].
  apply sort_insert_descending, IH.
Qed.

(** ** The two read-only calls *)

Lemma try_get_run {A} (src : nat -> FetchOutcome A) (w : World) :
  try_get src w = (Returned (served (src (net_pos w))), after (fetch src) w).
Proof.
  unfold try_get, served, try_catch, await_fetch, after, fetch, bind, emit, elapse, ret, throw.
  cbn [snd net_pos].
  destruct (src (net_pos w)) as [msg | status statusText body]; [reflexivity|].
  destruct (ok status), body; reflexivity.
Qed.

Lemma Date_now_run (w : World) :
  Date_now w = (Returned (clock (after Date_now w)), after Date_now w).
Proof. reflexivity. Qed.

Lemma clock_after_Date_now (w : World) : (clock w <= clock (after Date_now w))%Z.
Proof. cbn. pose proof (lag_nonneg (lag_pos w)). lia. Qed.


Lemma time_clip_between (x : Q) (lo hi : Z) :
  (inject_Z lo <= x)%Q -> (x <= inject_Z hi)%Q ->
  (lo <= Js.time_clip x <= hi)%Z.
Proof.
  unfold Js.time_clip. destruct x as [n d]. unfold Qle.
  cbn [Qnum Qden inject_Z]. intros Hlo Hhi.
  assert (Hd : (0 < Zpos d)%Z) by lia.
  destruct (Z_le_gt_dec 0 n) as [Hn | Hn].
  - rewrite Z.quot_div_nonneg by lia.
    pose proof (Z.div_mod n (Zpos d)) as E.
    pose proof (Z.mod_pos_bound n (Zpos d) Hd) as B. nia.
  - replace n with (- (- n))%Z by lia. rewrite Z.quot_opp_l by lia.
    rewrite Z.quot_div_nonneg by lia.
    pose proof (Z.div_mod (- n) (Zpos d)) as E.
    pose proof (Z.mod_pos_bound (- n) (Zpos d) Hd) as B. nia.
Qed.

Lemma mock_timestamp_range (now : Z) (r : Q) :
  (0 <= r)%Q -> (r < 1)%Q ->
  (now - 604800000 <= Js.time_clip (inject_Z now - r * sevenDays)%Q <= now)%Z.
Proof.
  intros H0 H1. apply time_clip_between; unfold sevenDays.
  - unfold Z.sub. rewrite inject_Z_plus, inject_Z_opp.
    change (inject_Z 604800000) with 604800000%Q.
    generalize (inject_Z now). intros q. lra.
  - generalize (inject_Z now). intros q. lra.
Qed.

Lemma clock_after_Math_random (w : World) : clock (after Math_random w) = clock w.
Proof. reflexivity. Qed.

Lemma synthesized_mono (lo hi hi' : Z) (rec : HistoryRecord) :
  (hi <= hi')%Z -> synthesized lo hi rec -> synthesized lo hi' rec.
Proof.
  intros Hle [Hf [Hr [now [Hnow Hts]]]]. repeat split; try assumption.
  exists now. split; lia.
Qed.

Lemma mock_loop_spec (limit lo : Z) :
  (forall k, (0 <= random_src k)%Q /\ (random_src k < 1)%Q) ->
  forall fuel i history w,
    Forall (synthesized lo (clock w)) history ->
    (lo <= clock w)%Z ->
    exists h w',
      mock_loop limit fuel i history w = (Returned h, w') /\
      Forall (synthesized lo (clock w')) h /\
      (clock w <= clock w')%Z /\
      length h =
      (length history + Z.to_nat (Z.min (Z.of_nat fuel) (Z.max 0 (limit - i))))%nat.
Proof.
  intros Hrand. induction fuel as [|fuel IH]; intros i history w Hall Hlo.
  - exists history, w. cbn [mock_loop]. unfold ret.
    repeat split; [exact Hall | lia | lia].
  - cbn [mock_loop]. destruct (i <? limit)%Z eqn:E.
    + apply Z.ltb_lt in E.
      rewrite (bind_run _ _ _ _ _ (Math_random_run w)).
      set (w1 := after Math_random w).
      rewrite (bind_run _ _ _ _ _ (Date_now_run w1)).
      set (w2 := after Date_now w1).
      rewrite (bind_run _ _ _ _ _ (Date_now_run w2)).
      set (w3 := after Date_now w2).
      rewrite (bind_run _ _ _ _ _ (Math_random_run w3)).
      set (w4 := after Math_random w3).
      rewrite (bind_run _ _ _ _ _ (Math_random_run w4)).
      set (w5 := after Math_random w4).
      rewrite (bind_run _ _ _ _ _ (Math_random_run w5)).
      set (w6 := after Math_random w5).
      assert (C1 : clock w1 = clock w) by reflexivity.
      assert (C2 : (clock w1 <= clock w2)%Z) by apply clock_after_Date_now.
      assert (C3 : (clock w2 <= clock w3)%Z) by apply clock_after_Date_now.
      assert (C6 : clock w6 = clock w3) by reflexivity.
      match goal with
      | |- context [mock_loop _ _ _ (history ++ [?r]) _] => set (rec := r)
      end.
      assert (Hrec : synthesized lo (clock w6) rec).
      { repeat split. exists (clock w3). split; [lia|].
        destruct (Hrand (rand_pos w3)) as [H0 H1].
        exact (mock_timestamp_range (clock w3) _ H0 H1). }
      destruct (IH (i + 1)%Z (history ++ [rec]) w6) as [h [w' [Hrun [Hh [Hclk Hlen]]]]].
      { apply Forall_app. split.
        - eapply Forall_impl; [|exact Hall]. intros r. apply synthesized_mono. lia.
        - constructor; [exact Hrec | constructor]. }
      { lia. }
      exists h, w'. split; [exact Hrun|]. split; [exact Hh|]. split; [lia|].
      rewrite Hlen, length_app. cbn [length]. lia.
    + apply Z.ltb_ge in E. exists history, w. unfold ret.
      repeat split; [exact Hall | lia | lia].
Qed.

Lemma generateMockHistory_spec (limit : Z) (w : World) :
  (forall k, (0 <= random_src k)%Q /\ (random_src k < 1)%Q) ->
  exists h w',
    generateMockHistory limit w = (Returned h, w') /\
    Z.of_nat (length h) = Z.max 0 limit /\
    descending h /\
    Forall (synthesized (clock w) (clock w')) h.
Proof.
  intros Hrand.
  destruct (mock_loop_spec limit (clock w) Hrand (Z.to_nat limit) 0%Z [] w)
    as [h [w' [Hrun [Hall [Hclk Hlen]]]]]; [constructor | lia |].
  exists (sort_history h), w'. unfold generateMockHistory.
  rewrite (bind_run _ _ _ _ _ Hrun). split; [reflexivity|].
  split; [|split].
  - rewrite (Permutation_length (sort_history_perm h)), Hlen. cbn [length]. lia.
  - apply sort_history_descending.
  - eapply Permutation_Forall; [apply Permutation_sym, sort_history_perm | exact Hall].
Qed.

Lemma getTransactionHistory_run (limit : Z) (w : World) :
  getTransactionHistory limit w =
  match served (history_src (net_pos w)) with
  | Some payload => (Returned payload, after (fetch history_src) w)
  | None => generateMockHistory limit (after (fetch history_src) w)
  end.
Proof.
  unfold getTransactionHistory.
  rewrite (bind_run _ _ _ _ _ (try_get_run history_src w)).
  destruct (served (history_src (net_pos w))); reflexivity.
Qed.


Lemma Returns_mock_loop (limit : Z) :
  forall fuel i history, Returns (mock_loop limit fuel i history).
Proof.
  induction fuel as [|fuel IH]; intros i history; cbn [mock_loop].
  - apply Returns_ret.
  - destruct (i <? limit)%Z; [|apply Returns_ret].
    repeat (apply Returns_bind;
            [first [apply Returns_Math_random | apply Returns_Date_now] | intros ?]).
    apply IH.
Qed.

Lemma Returns_generateMockHistory (limit : Z) : Returns (generateMockHistory limit).
Proof.
  unfold generateMockHistory. apply Returns_bind; [apply Returns_mock_loop|].
  intros h. apply Returns_ret.
Qed.

Lemma getModelStats_run (w : World) :
  getModelStats w =
  match served (stats_src (net_pos w)) with
  | Some payload => (Returned payload, after (fetch stats_src) w)
  | None =>
      (Returned (fallbackStats (clock (after Date_now (after (fetch stats_src) w)))),
       after Date_now (after (fetch stats_src) w))
  end.
Proof.
  unfold getModelStats.
  rewrite (bind_run _ _ _ _ _ (try_get_run stats_src w)).
  destruct (served (stats_src (net_pos w))); [reflexivity|].
  rewrite (bind_run _ _ _ _ _ (Date_now_run _)). reflexivity.
Qed.

(** C9: [getModelStats] and [getTransactionHistory] raise nothing,
    whatever the network does.  When the request did not serve a
    payload (no response, a status outside 2xx, or a body that does
    not parse), [getModelStats] returns the fixed record (accuracy
    0.94, precision 0.89, recall 0.92, f1Score 0.905, counts 15847,
    1247 and 89, stamped with the current time) and
    [getTransactionHistory] returns what [generateMockHistory] makes. *)
Theorem read_only_calls_never_raise (limit : Z) (w : World) :
  (exists w',
      getModelStats w =
      (Returned
         match served (stats_src (net_pos w)) with
         | Some payload => payload
         | None =>
             {| accuracy := 0.94; precision := 0.89; recall := 0.92;
                f1Score := 0.905; totalTransactions := 15847;
                fraudDetected := 1247; falsePositives := 89;
                lastUpdated := clock w' |}
         end, w')) /\
  (exists h w',
      getTransactionHistory limit w = (Returned h, w') /\
      match served (history_src (net_pos w)) with
      | Some payload => h = payload
      | None =>
          generateMockHistory limit (after (fetch history_src) w) = (Returned h, w')
      end).
Proof.
  split.
  - rewrite getModelStats_run.
    destruct (served (stats_src (net_pos w))); eexists; reflexivity.
  - rewrite getTransactionHistory_run.
    destruct (served (history_src (net_pos w))) as [payload|].
    + exists payload. eexists. split; reflexivity.
    + destruct (Returns_generateMockHistory limit (after (fetch history_src) w))
        as [h [w' E]].
      exists h, w'. split; exact E.
Qed.

(** ** The trace of one call *)

Lemma Silent_ret {A} (a : A) : Silent (ret a).
Proof. intros w. reflexivity. Qed.

Lemma Silent_bind {A B} (c : M A) (k : A -> M B) :
  Returns c -> Silent c -> (forall a, Silent (k a)) -> Silent (bind c k).
Proof.
  intros Hr Hc Hk w. destruct (Hr w) as [a [w1 E]].
  unfold after. rewrite (bind_run c k w w1 a E).
  specialize (Hc w). unfold after in Hc. rewrite E in Hc. cbn [snd] in Hc.
  rewrite <- Hc. apply Hk.
Qed.

Lemma Silent_Math_random : Silent Math_random.
Proof. intros w. reflexivity. Qed.

Lemma Silent_generateFeatureImportance td : Silent (generateFeatureImportance td).
Proof.
  unfold generateFeatureImportance.
  repeat (apply Silent_bind;
          [apply Returns_Math_random | apply Silent_Math_random | intros ?]).
  apply Silent_ret.
Qed.

Lemma Silent_placeholder (x : option Q) (a b : Q) :
  Silent (match x with
          | Some c => if Js.truthy_num c then ret c
                      else bind Math_random (fun r => ret (r * a + b)%Q)
          | None => bind Math_random (fun r => ret (r * a + b)%Q)
          end).
Proof.
  destruct x as [c|]; [destruct (Js.truthy_num c)|];
    try apply Silent_ret;
    (apply Silent_bind;
     [apply Returns_Math_random | apply Silent_Math_random | intros ?; apply Silent_ret]).
Qed.

Lemma Silent_throw {A} (e : JsError) : Silent (@throw A e).
Proof. intros w. reflexivity. Qed.

Lemma Silent_enhance td result : Silent (enhance td result).
Proof.
  unfold enhance. destruct result as [msg | result]; [apply Silent_throw|].
  apply Silent_bind; [apply Returns_placeholder | apply Silent_placeholder | intros c].
  apply Silent_bind;
    [apply Returns_generateFeatureImportance | apply Silent_generateFeatureImportance
     | intros fi].
  apply Silent_bind; [apply Returns_placeholder | apply Silent_placeholder | intros pt].
  apply Silent_ret.
Qed.

Lemma Silent_mock_analysis td : Silent (mock_analysis td).
Proof.
  unfold mock_analysis.
  apply Silent_bind; [apply Returns_Math_random | apply Silent_Math_random | intros r].
  apply Silent_bind;
    [apply Returns_generateFeatureImportance | apply Silent_generateFeatureImportance
     | intros fi].
  apply Silent_bind; [apply Returns_Math_random | apply Silent_Math_random | intros r'].
  apply Silent_ret.
Qed.

Lemma attempt_trace (td : TransactionData) (w : World) :
  score_attempt td w =
  (attempt_result (score_src (net_pos w)), after (fetch score_src) w) /\
  events (after (fetch score_src) w) = Fetched (clock w) :: events w /\
  net_pos (after (fetch score_src) w) = S (net_pos w).
Proof. split; [apply score_attempt_run | split; reflexivity]. Qed.

Lemma backoff_bound (e : JsError) (i : nat) :
  (i <= 1)%nat ->
  (0 < (if isRateLimitError e then 1000 * 2 ^ (Z.of_nat i + 1) else 1000 * 2 ^ Z.of_nat i)
   <= 2000 * 2 ^ Z.of_nat i)%Z.
Proof.
  intros Hi. destruct i as [|[|i]]; [| |lia];
    destruct (isRateLimitError e); cbn; lia.
Qed.

Lemma retry_trace (td : TransactionData) (w : World) :
  exists o w' new,
    retryWithBackoff (score_attempt td) 3 1000 w = (o, w') /\
    events w' = new ++ events w /\
    (1 <= fetches new <= 3)%nat /\
    S (length (sleeps new)) = fetches new /\
    (total (sleeps new) <= 6000)%Z /\
    Forall (fun d => (0 < d)%Z) (sleeps new) /\
    dispatches new = [] /\
    net_pos w' = (net_pos w + fetches new)%nat /\
    interleaved new /\
    exists older, new = older ++ [Fetched (clock w)].
Proof.
  unfold retryWithBackoff.
  destruct (attempt_trace td w) as [R0 [E0 N0]].
  set (w0 := after (fetch score_src) w) in *.
  destruct (attempt_result (score_src (net_pos w))) as [r | e0].
  { exists (Returned r), w0, [Fetched (clock w)].
    rewrite (retry_loop_returned _ 3 1000 2 0 w r w0 R0).
    cbn [fetches sleeps dispatches length total fold_right app interleaved].
    repeat split; try lia; try assumption; try exact I; try constructor.
    exists []. reflexivity. }
  rewrite (retry_loop_raised _ 3 1000 2 0 w e0 w0 R0) by lia.
  pose proof (backoff_bound e0 0 ltac:(lia)) as B0.
  set (d0 := (if isRateLimitError e0 then _ else _)%Z) in *.
  set (wa := after (sleep d0) w0).
  assert (Ea : events wa = Slept d0 :: events w0) by reflexivity.
  assert (Na : net_pos wa = net_pos w0) by reflexivity.
  destruct (attempt_trace td wa) as [R1 [E1 N1]].
  set (w1 := after (fetch score_src) wa) in *.
  destruct (attempt_result (score_src (net_pos wa))) as [r | e1].
  { exists (Returned r), w1, [Fetched (clock wa); Slept d0; Fetched (clock w)].
    rewrite (retry_loop_returned _ 3 1000 1 1 wa r w1 R1).
    rewrite E1, Ea, E0, N1, Na, N0.
    cbn [fetches sleeps dispatches length total fold_right app interleaved].
    change (2 ^ Z.of_nat 0)%Z with 1%Z in B0.
    repeat split; try lia; try exact I; try (repeat constructor; lia).
    exists [Fetched (clock wa); Slept d0]. reflexivity. }
  rewrite (retry_loop_raised _ 3 1000 1 1 wa e1 w1 R1) by lia.
  pose proof (backoff_bound e1 1 ltac:(lia)) as B1.
  set (d1 := (if isRateLimitError e1 then _ else _)%Z) in *.
  set (wb := after (sleep d1) w1).
  assert (Eb : events wb = Slept d1 :: events w1) by reflexivity.
  assert (Nb : net_pos wb = net_pos w1) by reflexivity.
  destruct (attempt_trace td wb) as [R2 [E2 N2]].
  set (w2 := after (fetch score_src) wb) in *.
  change (2 ^ Z.of_nat 0)%Z with 1%Z in B0.
  change (2 ^ Z.of_nat 1)%Z with 2%Z in B1.
  destruct (attempt_result (score_src (net_pos wb))) as [r | e2].
  { exists (Returned r), w2,
      [Fetched (clock wb); Slept d1; Fetched (clock wa); Slept d0; Fetched (clock w)].
    rewrite (retry_loop_returned _ 3 1000 0 2 wb r w2 R2).
    rewrite E2, Eb, E1, Ea, E0, N2, Nb, N1, Na, N0.
    cbn [fetches sleeps dispatches length total fold_right app interleaved].
    repeat split; try lia; try exact I; try (repeat constructor; lia).
    exists [Fetched (clock wb); Slept d1; Fetched (clock wa); Slept d0]. reflexivity. }
  exists (Raised e2), w2,
    [Fetched (clock wb); Slept d1; Fetched (clock wa); Slept d0; Fetched (clock w)].
  rewrite (retry_loop_last_raised _ 3 1000 0 2 wb e2 w2 R2) by reflexivity.
  rewrite E2, Eb, E1, Ea, E0, N2, Nb, N1, Na, N0.
  cbn [fetches sleeps dispatches length total fold_right app interleaved].
  repeat split; try lia; try exact I; try (repeat constructor; lia).
  exists [Fetched (clock wb); Slept d1; Fetched (clock wa); Slept d0]. reflexivity.
Qed.

(** What a call adds to the trace after its prologue: the events of
    its attempts, and nothing else. *)
Lemma call_trace (td : TransactionData) (w : World) :
  exists new,
    events (after (checkFraud td) w) = new ++ events (after throttle w) /\
    (1 <= fetches new <= 3)%nat /\
    S (length (sleeps new)) = fetches new /\
    (total (sleeps new) <= 6000)%Z /\
    Forall (fun d => (0 < d)%Z) (sleeps new) /\
    dispatches new = [] /\
    interleaved new /\
    exists older, new = older ++ [Fetched (clock (after throttle w))].
Proof.
  destruct (retry_trace td (after throttle w))
    as [o [w2 [new [Hr [Hev [Hf [Hs [Ht [Hp [Hd [_ [Hi Ho]]]]]]]]]]]].
  exists new. split; [|repeat split; assumption || lia].
  rewrite <- Hev. destruct o as [[msg | r] | e].
  - pose proof (checkFraud_on_null td w w2 msg Hr) as E.
    destruct (isRateLimitError (Error msg)).
    + replace (after (checkFraud td) w) with (after (mock_analysis td) w2)
        by (unfold after; rewrite E; reflexivity).
      apply Silent_mock_analysis.
    + unfold after. rewrite E. reflexivity.
  - pose proof (checkFraud_on_success td w w2 r Hr) as E.
    replace (after (checkFraud td) w) with (after (enhance td (JsonObject r)) w2)
      by (unfold after; rewrite E; reflexivity).
    apply Silent_enhance.
  - pose proof (checkFraud_on_failure td w w2 e Hr) as E.
    destruct (isRateLimitError e).
    + replace (after (checkFraud td) w) with (after (mock_analysis td) w2)
        by (unfold after; rewrite E; reflexivity).
      apply Silent_mock_analysis.
    + unfold after. rewrite E. reflexivity.
Qed.

(** X1: after its prologue, one call of [checkFraud] adds to the trace
    only the events of its attempts, and these alternate: a request,
    then for each further request one wait followed by that request.
    So it sends at least one and at most three requests, waits exactly
    once between two consecutive requests and not after the last one,
    and these waits add up to at most 6000 ms. *)
Theorem requests_per_call (td : TransactionData) (w : World) :
  exists new,
    events (after (checkFraud td) w) = new ++ events (after throttle w) /\
    interleaved new /\
    (1 <= fetches new <= 3)%nat /\
    S (length (sleeps new)) = fetches new /\
    (total (sleeps new) <= 6000)%Z /\
    Forall (fun d => (0 < d)%Z) (sleeps new) /\
    dispatches new = [].
Proof.
  destruct (call_trace td w) as [new [Hev [Hf [Hs [Ht [Hp [Hd [Hi _]]]]]]]].
  exists new. repeat split; assumption || lia.
Qed.

(** ** Dispatches and the requests they start *)

(** The time a call records is the reading of the clock at which it
    leaves its prologue, and that is not before the call was made. *)
Lemma throttle_clock (w : World) :
  clock (after throttle w) = lastRequestTime (after throttle w) /\
  (now_at w <= lastRequestTime (after throttle w))%Z.
Proof.
  unfold after, throttle, Date_now, get_lastRequestTime, set_lastRequestTime, now_at, bind.
  cbn [elapse clock lastRequestTime lag_pos events].
  replace (clock w + 0 + lag_src (lag_pos w))%Z
    with (clock w + lag_src (lag_pos w))%Z by lia.
  unfold MIN_REQUEST_INTERVAL.
  destruct (clock w + lag_src (lag_pos w) - lastRequestTime w <? 2000)%Z eqn:E.
  - rewrite sleep_run. cbn [ret clock lastRequestTime lag_pos events elapse snd].
    split; [reflexivity|].
    apply Z.ltb_lt in E.
    pose proof (lag_nonneg (S (lag_pos w))). pose proof (lag_nonneg (S (S (lag_pos w)))).
    lia.
  - cbn [ret clock lastRequestTime lag_pos events elapse snd].
    split; [reflexivity|].
    pose proof (lag_nonneg (S (lag_pos w))). lia.
Qed.

Lemma first_requests_fetched (f : Z) (rest : list Event) :
  first_requests (Fetched f :: rest) =
  match rest with
  | Dispatched _ :: _ => f :: first_requests rest
  | _ => first_requests rest
  end.
Proof. reflexivity. Qed.

Lemma first_requests_none (evs : list Event) :
  dispatches evs = [] -> first_requests evs = [].
Proof.
  induction evs as [|e evs IH]; intros H; [reflexivity|].
  destruct e as [d | t | f]; cbn [dispatches] in H; try discriminate H.
  - exact (IH H).
  - rewrite first_requests_fetched.
    destruct evs as [|[d | t | f'] evs']; try exact (IH H).
    discriminate H.
Qed.

Lemma first_requests_later (later rest : list Event) (t : Z) :
  dispatches later = [] ->
  first_requests (later ++ Fetched t :: rest) = first_requests (Fetched t :: rest).
Proof.
  induction later as [|e later IH]; intros H; [reflexivity|].
  destruct e as [d | t' | f]; cbn [dispatches] in H; try discriminate H.
  - exact (IH H).
  - change ((Fetched f :: later) ++ Fetched t :: rest)
      with (Fetched f :: (later ++ Fetched t :: rest)).
    rewrite first_requests_fetched.
    destruct later as [|[d | t' | f'] later']; try exact (IH H).
    discriminate H.
Qed.

(** The events of one call, seen from the list of first requests and
    from the list of dispatches. *)
Lemma first_requests_call (later wait evs : list Event) (t : Z) :
  dispatches later = [] ->
  wait = [] \/ (exists d, wait = [Slept d]) ->
  first_requests (later ++ Fetched t :: Dispatched t :: wait ++ evs) = t :: first_requests evs /\
  dispatches (later ++ Fetched t :: Dispatched t :: wait ++ evs) = t :: dispatches evs.
Proof.
  intros Hl Hw. rewrite first_requests_later by exact Hl.
  rewrite dispatches_app, Hl.
  destruct Hw as [-> | [d ->]]; split; reflexivity.
Qed.

(** One call: what it waits for, the time it records, and the request
    it starts at that time. *)
Lemma call_dispatch (td : TransactionData) (w : World) :
  exists t later,
    events (after (checkFraud td) w) =
      later ++ Fetched t :: Dispatched t
        :: (if (now_at w - lastRequestTime w <? MIN_REQUEST_INTERVAL)%Z
            then [Slept (MIN_REQUEST_INTERVAL - (now_at w - lastRequestTime w))]
            else [])
        ++ events w /\
    dispatches later = [] /\
    lastRequestTime (after (checkFraud td) w) = t /\
    clock (after throttle w) = t /\
    (lastRequestTime w + MIN_REQUEST_INTERVAL <= t)%Z /\
    (now_at w <= t)%Z.
Proof.
  destruct (call_trace td w) as [new [Hev [_ [_ [_ [_ [Hd [_ [older Hold]]]]]]]]].
  destruct (throttle_run w) as [w1 [Hrun [Hgap Hev1]]].
  assert (Hw1 : after throttle w = w1) by (unfold after; rewrite Hrun; reflexivity).
  destruct (throttle_clock w) as [Hclock Hnow].
  rewrite Hw1 in Hev, Hold, Hclock, Hnow.
  destruct (checkFraud_dispatch td w) as [t [later [Hev' [Hnone [Hlast _]]]]].
  assert (Ht : t = lastRequestTime w1).
  { assert (Hsame : dispatches (events (after (checkFraud td) w)) =
                    dispatches (events (after (checkFraud td) w))) by reflexivity.
    rewrite Hev in Hsame at 1. rewrite Hev' in Hsame.
    rewrite Hev1 in Hsame.
    rewrite !dispatches_app, Hd, Hnone in Hsame. cbn [app dispatches] in Hsame.
    congruence. }
  subst t. exists (lastRequestTime w1), older.
  assert (Holder : dispatches older = []).
  { rewrite Hold, dispatches_app in Hd. apply app_eq_nil in Hd. exact (proj1 Hd). }
  split.
  { rewrite Hev, Hold, Hev1, Hclock, <- app_assoc. reflexivity. }
  rewrite Hw1. repeat split; assumption.
Qed.

Lemma session_first_requests (requests : list TransactionData) :
  forall w,
    first_requests (events w) = dispatches (events w) ->
    first_requests (events (after (session requests) w)) =
    dispatches (events (after (session requests) w)).
Proof.
  induction requests as [|td rest IH]; intros w Hw; [exact Hw|].
  rewrite session_after. apply IH.
  destruct (call_dispatch td w) as [t [later [Hev [Hnone _]]]].
  rewrite Hev.
  destruct (first_requests_call later
              (if (now_at w - lastRequestTime w <? MIN_REQUEST_INTERVAL)%Z
               then [Slept (MIN_REQUEST_INTERVAL - (now_at w - lastRequestTime w))]
               else [])
              (events w) t Hnone) as [Hf Hd].
  { destruct (_ <? _)%Z; [right; eexists; reflexivity | left; reflexivity]. }
  rewrite Hf, Hd, Hw. reflexivity.
Qed.

(** C1: provided the clock never runs backwards and no timer fires
    before its delay has elapsed, the first requests of one caller's
    successive calls start, in order, at least the minimum interval
    (2000 ms) apart, one per call, each at the time its call records.
    A call whose reading of the clock is less than 2000 ms after the
    recorded last dispatch first waits for exactly the remaining time;
    it then records the reading of the clock at which it goes on, not
    earlier than 2000 ms after the previous record, and starts its
    first request at that reading. *)
Theorem consecutive_dispatches_spaced (requests : list TransactionData) (w : World) :
  dispatches (events w) = [] ->
  spaced (rev (first_requests (events (after (session requests) w)))) /\
  first_requests (events (after (session requests) w)) =
    dispatches (events (after (session requests) w)) /\
  length (first_requests (events (after (session requests) w))) = length requests /\
  (forall (td : TransactionData) (w0 : World),
      exists t later,
        events (after (checkFraud td) w0) =
          later ++ Fetched t :: Dispatched t
            :: (if (now_at w0 - lastRequestTime w0 <? MIN_REQUEST_INTERVAL)%Z
                then [Slept (MIN_REQUEST_INTERVAL - (now_at w0 - lastRequestTime w0))]
                else [])
            ++ events w0 /\
        dispatches later = [] /\
        lastRequestTime (after (checkFraud td) w0) = t /\
        clock (after throttle w0) = t /\
        (lastRequestTime w0 + MIN_REQUEST_INTERVAL <= t)%Z /\
        (now_at w0 <= t)%Z).
Proof.
  intros Hfresh.
  assert (Hrec : recorded w).
  { unfold recorded. rewrite Hfresh. split; exact I. }
  assert (Hsame : first_requests (events w) = dispatches (events w)).
  { rewrite Hfresh. apply first_requests_none. exact Hfresh. }
  destruct (session_recorded requests w Hrec) as [[Hsp _] Hlen].
  rewrite (session_first_requests requests w Hsame).
  split; [apply spaced_desc_rev; exact Hsp|].
  split; [reflexivity|].
  split; [rewrite Hlen, Hfresh; cbn [length]; lia|].
  intros td w0. apply call_dispatch.
Qed.

Lemma raised_not_rate_limit (td : TransactionData) (w w' : World) (e : JsError) :
  checkFraud td w = (Raised e, w') -> isRateLimitError e = false.
Proof.
  intros H.
  destruct (retry_trace td (after throttle w)) as [o [w2 [new [Hr _]]]].
  destruct o as [[msg | r] | e2].
  - rewrite (checkFraud_on_null td w w2 msg Hr) in H.
    destruct (isRateLimitError (Error msg)) eqn:Hrl.
    + destruct (mock_analysis_run td w2) as [fi [pt [w3 E]]].
      rewrite E in H. discriminate H.
    + injection H as <- _. exact Hrl.
  - rewrite (checkFraud_on_success td w w2 r Hr) in H.
    destruct (enhance_run td r w2) as [c [fi [pt [w3 E]]]].
    rewrite E in H. discriminate H.
  - rewrite (checkFraud_on_failure td w w2 e2 Hr) in H.
    destruct (isRateLimitError e2) eqn:Hrl.
    + destruct (mock_analysis_run td w2) as [fi [pt [w3 E]]].
      rewrite E in H. discriminate H.
    + injection H as -> _. exact Hrl.
Qed.

(** X2: an error that [checkFraud] throws is never one that the
    rate-limit test accepts: its message contains neither "429" nor
    "Too Many Requests". *)
Theorem thrown_error_is_not_rate_limit (td : TransactionData) (w w' : World) (e : JsError) :
  checkFraud td w = (Raised e, w') ->
  isRateLimitError e = false /\
  Js.includes (message e) "429" = false /\
  Js.includes (message e) "Too Many Requests" = false.
Proof.
  intros H. pose proof (raised_not_rate_limit td w w' e H) as Hno.
  split; [exact Hno|]. unfold isRateLimitError in Hno.
  apply orb_false_iff in Hno. exact Hno.
Qed.

(** X3: whatever path produced it, a result that [checkFraud] returns
    is coherent: its risk level is the band of its probability, it is
    flagged whenever its probability exceeds 0.5, it has at least one
    explanation, and its model version is not empty. *)
Theorem returned_result_is_coherent (td : TransactionData) (w w' : World) (res : FraudResult) :
  checkFraud td w = (Returned res, w') ->
  riskLevel res = getRiskLevel (fraudProbability res) /\
  (Js.gtb (fraudProbability res) 0.5 = true -> flagged res = true) /\
  explanation res <> [] /\
  modelVersion res <> "".
Proof.
  intros H.
  assert (Hmock : forall w2, mock_analysis td w2 = (Returned res, w') ->
            riskLevel res = getRiskLevel (fraudProbability res) /\
            (Js.gtb (fraudProbability res) 0.5 = true -> flagged res = true) /\
            explanation res <> [] /\
            modelVersion res <> "").
  { intros w2 Hm. destruct (mock_analysis_run td w2) as [fi [pt [w3 E]]].
    rewrite E in Hm. injection Hm as <- _.
    cbn [riskLevel fraudProbability flagged explanation modelVersion].
    repeat split; try discriminate. intros Hp. exact Hp. }
  destruct (retry_trace td (after throttle w)) as [o [w2 [new [Hr _]]]].
  destruct o as [[msg | r] | e2].
  - rewrite (checkFraud_on_null td w w2 msg Hr) in H.
    destruct (isRateLimitError (Error msg)); [|discriminate H].
    exact (Hmock w2 H).
  - rewrite (checkFraud_on_success td w w2 r Hr) in H.
    destruct (enhance_run td r w2) as [c [fi [pt [w3 E]]]].
    rewrite E in H. injection H as <- _.
    cbn [riskLevel fraudProbability flagged explanation modelVersion].
    split; [reflexivity|]. split; [|split].
    + intros Hp. rewrite Hp. destruct (r_flagged r) as [[|]|]; reflexivity.
    + apply generateExplanation_nonempty.
    + unfold Js.or_str. destruct (r_modelVersion r) as [s|]; [|discriminate].
      unfold Js.truthy_str. destruct s; cbn; discriminate.
  - rewrite (checkFraud_on_failure td w w2 e2 Hr) in H.
    destruct (isRateLimitError e2); [|discriminate H].
    exact (Hmock w2 H).
Qed.

(** X4: when the first attempt fails and the second is served a 200
    response, the call sends two requests and waits once in between:
    2000 ms if the failure was taken for a rate limit, 1000 ms
    otherwise.  Of an object body it returns the normalization.  On the
    body [null] the first property read throws a [TypeError]; that
    error reaches the caller, unless its message is itself taken for a
    rate limit, in which case the simulated result is returned. *)
Theorem second_attempt_payload_is_used (td : TransactionData) (w : World)
        (e0 : JsError) (body : ScoreJson) :
  attempt_result (score_src (net_pos w)) = Raised e0 ->
  attempt_result (score_src (S (net_pos w))) = Returned body ->
  exists o w',
    checkFraud td w = (o, w') /\
    match body with
    | JsonObject r =>
        exists res,
          o = Returned res /\
          fraudProbability res = response_probability r /\
          riskLevel res = getRiskLevel (response_probability r) /\
          explanation res = generateExplanation td (response_probability r) /\
          modelVersion res = Js.or_str (r_modelVersion r) "v2.1.0"
    | JsonNull typeError =>
        if isRateLimitError (Error typeError)
        then exists res, o = Returned res /\ modelVersion res = "v2.1.0-mock"
        else o = Raised (Error typeError)
    end /\
    sleeps (events w') =
      (if isRateLimitError e0 then 2000 else 1000)%Z :: sleeps (events (after throttle w)) /\
    fetches (events w') = S (S (fetches (events (after throttle w)))).
Proof.
  intros H0 H1.
  set (w1 := after throttle w).
  assert (N1 : net_pos w1 = net_pos w) by apply throttle_net_pos.
  destruct (attempt_trace td w1) as [R0 [E0 M0]].
  rewrite N1, H0 in R0. set (wf := after (fetch score_src) w1) in *.
  assert (Hretry : exists w2,
             retryWithBackoff (score_attempt td) 3 1000 w1 = (Returned body, w2) /\
             events w2 =
               Fetched (clock (after (sleep (if isRateLimitError e0 then 2000 else 1000)%Z) wf))
                 :: Slept (if isRateLimitError e0 then 2000 else 1000)%Z
                 :: Fetched (clock w1) :: events w1).
  { unfold retryWithBackoff.
    rewrite (retry_loop_raised _ 3 1000 2 0 w1 e0 wf R0) by lia.
    replace (if isRateLimitError e0 then 1000 * 2 ^ (Z.of_nat 0 + 1) else 1000 * 2 ^ Z.of_nat 0)%Z
      with (if isRateLimitError e0 then 2000 else 1000)%Z
      by (destruct (isRateLimitError e0); reflexivity).
    set (d0 := (if isRateLimitError e0 then 2000 else 1000)%Z).
    set (wa := after (sleep d0) wf).
    destruct (attempt_trace td wa) as [Ra [Ea Ma]].
    assert (Na : net_pos wa = S (net_pos w)).
    { change (net_pos wa) with (net_pos wf). rewrite M0, N1. reflexivity. }
    rewrite Na, H1 in Ra.
    exists (after (fetch score_src) wa).
    split; [apply (retry_loop_returned _ 3 1000 1 1 wa body _ Ra)|].
    rewrite Ea. change (events wa) with (Slept d0 :: events wf). rewrite E0. reflexivity. }
  destruct Hretry as [w2 [Hr Hev]].
  assert (Htrace : forall w', events w' = events w2 ->
            sleeps (events w') =
              (if isRateLimitError e0 then 2000 else 1000)%Z :: sleeps (events w1) /\
            fetches (events w') = S (S (fetches (events w1)))).
  { intros w' Hw'. rewrite Hw', Hev. split; reflexivity. }
  destruct body as [msg | r].
  - pose proof (checkFraud_on_null td w w2 msg Hr) as E.
    destruct (isRateLimitError (Error msg)).
    + destruct (mock_analysis_run td w2) as [fi [pt [w' Em]]].
      eexists. exists w'. split; [rewrite E; exact Em|].
      split; [eexists; split; reflexivity|].
      apply Htrace.
      pose proof (Silent_mock_analysis td w2) as S. unfold after in S.
      rewrite Em in S. exact S.
    + exists (Raised (Error msg)), w2. split; [exact E|].
      split; [reflexivity|]. apply Htrace. reflexivity.
  - destruct (enhance_run td r w2) as [c [fi [pt [w' E]]]].
    eexists. exists w'. split.
    { rewrite (checkFraud_on_success td w w2 r Hr). exact E. }
    split.
    { eexists. split; [reflexivity|].
      cbn [fraudProbability riskLevel explanation modelVersion].
      repeat split. }
    apply Htrace.
    pose proof (Silent_enhance td (JsonObject r) w2) as S. unfold after in S.
    rewrite E in S. exact S.
Qed.

(** ** Feature weights *)

Section Binary64.

Local Open Scope Q_scope.

Lemma rne_le (x y : Q) : x <= y -> (Js.rne x <= Js.rne y)%Z.
Proof.
  intros H. unfold Js.rne.
  pose proof (Qfloor_resp_le x y H) as Hf.
  pose proof (Qfloor_le y) as Hy.
  pose proof (Qlt_floor x) as Hx.
  destruct (Z.eq_dec (Qfloor x) (Qfloor y)) as [E | E].
  - rewrite E in *. clear E Hf.
    destruct (Qcompare_spec (x - inject_Z (Qfloor y)) (1 # 2)) as [Ex | Ex | Ex];
      destruct (Qcompare_spec (y - inject_Z (Qfloor y)) (1 # 2)) as [Ey | Ey | Ey];
      try (destruct (Z.even (Qfloor y))); try lia; exfalso; lra.
  - assert (Hlt : (Qfloor x + 1 <= Qfloor y)%Z) by lia.
    destruct (Qcompare (x - inject_Z (Qfloor x)) (1 # 2)), (Qcompare (y - inject_Z (Qfloor y)) (1 # 2));
      try (destruct (Z.even (Qfloor x))); try (destruct (Z.even (Qfloor y))); lia.
Qed.

Lemma rne_inject (n : Z) : Js.rne (inject_Z n) = n.
Proof.
  unfold Js.rne. rewrite Qfloor_Z.
  destruct (Qcompare_spec (inject_Z n - inject_Z n) (1 # 2)) as [E | E | E];
    [exfalso; lra | reflexivity | exfalso; lra].
Qed.

Lemma pow2_pos (e : Z) : 0 < 2 ^ e.
Proof. apply Qpower_0_lt. reflexivity. Qed.

Lemma pow2_succ (e : Z) : 2 ^ (e + 1) == 2 ^ e * 2.
Proof. rewrite Qpower_plus by discriminate. reflexivity. Qed.

Lemma pow2_inject (k : Z) : (0 <= k)%Z -> inject_Z (2 ^ k) == 2 ^ k.
Proof. intros H. apply (Zpower_Qpower 2 k H). Qed.

Lemma ratio_bounds (A B N D : Q) :
  0 < A -> 0 < B -> 0 < D ->
  A <= N -> N < A * 2 -> B <= D -> D < B * 2 ->
  A / (B * 2) <= N / D /\ N / D < A * 2 / B.
Proof.
  intros HA HB HD H1 H2 H3 H4. split.
  - apply Qle_shift_div_l; [exact HD|].
    apply Qle_trans with (A / (B * 2) * (B * 2)).
    + apply Qmult_le_l; [|lra].
      apply Qlt_shift_div_l; lra.
    + rewrite Qmult_comm, Qmult_div_r; [exact H1|]. intros E. lra.
  - apply Qlt_shift_div_r; [exact HD|].
    apply Qlt_le_trans with (A * 2 / B * B).
    + rewrite Qmult_comm, Qmult_div_r; [exact H2|]. intros E. lra.
    + apply Qmult_le_l; [|exact H3].
      apply Qlt_shift_div_l; lra.
Qed.

Lemma binade_rough (q : Q) :
  0 < q ->
  2 ^ (Z.log2 (Qnum q) - Z.log2 (Zpos (Qden q)) - 1) <= q /\
  q < 2 ^ (Z.log2 (Qnum q) - Z.log2 (Zpos (Qden q)) + 1).
Proof.
  destruct q as [n d]. intros Hq. cbn [Qnum Qden].
  assert (Hn : (0 < n)%Z) by (unfold Qlt in Hq; cbn in Hq; lia).
  destruct (Z.log2_spec n Hn) as [Hn1 Hn2].
  destruct (Z.log2_spec (Zpos d) eq_refl) as [Hd1 Hd2].
  pose proof (Z.log2_nonneg n) as Ln. pose proof (Z.log2_nonneg (Zpos d)) as Ld.
  set (ln := Z.log2 n) in *. set (ld := Z.log2 (Zpos d)) in *.
  replace (Z.succ ln) with (ln + 1)%Z in Hn2 by lia.
  replace (Z.succ ld) with (ld + 1)%Z in Hd2 by lia.
  rewrite Zle_Qle, pow2_inject in Hn1, Hd1 by lia.
  rewrite Zlt_Qlt, pow2_inject in Hn2, Hd2 by lia.
  rewrite pow2_succ in Hn2, Hd2.
  rewrite (Qmake_Qdiv n d).
  replace (ln - ld - 1)%Z with (ln - (ld + 1))%Z by lia.
  replace (ln - ld + 1)%Z with ((ln + 1) - ld)%Z by lia.
  rewrite !Qpower_minus by discriminate. rewrite !pow2_succ.
  apply ratio_bounds; try assumption; try apply pow2_pos. reflexivity.
Qed.

Lemma binade_spec (q : Q) :
  0 < q -> 2 ^ Js.binade q <= q /\ q < 2 ^ (Js.binade q + 1).
Proof.
  intros Hq. destruct (binade_rough q Hq) as [Hlo Hhi]. unfold Js.binade.
  set (e := (Z.log2 (Qnum q) - Z.log2 (Zpos (Qden q)))%Z) in *.
  destruct (Qle_bool (2 ^ e) q) eqn:E.
  - apply Qle_bool_iff in E. split; assumption.
  - split; [exact Hlo|].
    replace (e - 1 + 1)%Z with e by lia.
    apply Qnot_le_lt. intros H. apply Qle_bool_iff in H. congruence.
Qed.

Lemma binade_le (x y : Q) : 0 < x -> x <= y -> (Js.binade x <= Js.binade y)%Z.
Proof.
  intros Hx Hxy.
  destruct (binade_spec x Hx) as [Hx1 _].
  destruct (binade_spec y) as [_ Hy2]; [lra|].
  assert (H : 2 ^ Js.binade x < 2 ^ (Js.binade y + 1)) by lra.
  apply Qpower_lt_compat_l_inv in H; [lia | reflexivity].
Qed.

Lemma round64_pos_upper (x : Q) :
  0 < x -> Js.round64_pos x <= 2 ^ (Z.max (Js.binade x) (-1022) + 1).
Proof.
  intros Hx. unfold Js.round64_pos.
  set (e := Z.max (Js.binade x) (-1022)).
  destruct (binade_spec x Hx) as [_ H2].
  assert (He : 2 ^ (Js.binade x + 1) <= 2 ^ (e + 1)).
  { apply Qpower_le_compat_l; [unfold e; lia | discriminate]. }
  pose proof (pow2_pos (e - 52)) as Hu.
  assert (Hs : 2 ^ (e + 1) == inject_Z (2 ^ 53) * 2 ^ (e - 52)).
  { rewrite pow2_inject by lia. rewrite <- Qpower_plus by discriminate.
    replace (53 + (e - 52))%Z with (e + 1)%Z by lia. reflexivity. }
  rewrite Hs. apply Qmult_le_compat_r; [|lra].
  rewrite <- Zle_Qle. rewrite <- (rne_inject (2 ^ 53)). apply rne_le.
  apply Qle_shift_div_r; [exact Hu|]. rewrite <- Hs. lra.
Qed.

Lemma round64_pos_lower (x : Q) :
  0 < x -> (-1022 <= Js.binade x)%Z -> 2 ^ Js.binade x <= Js.round64_pos x.
Proof.
  intros Hx Hn. unfold Js.round64_pos.
  rewrite Z.max_l by exact Hn.
  set (e := Js.binade x).
  destruct (binade_spec x Hx) as [H1 _]. fold e in H1.
  pose proof (pow2_pos (e - 52)) as Hu.
  assert (Hs : 2 ^ e == inject_Z (2 ^ 52) * 2 ^ (e - 52)).
  { rewrite pow2_inject by lia. rewrite <- Qpower_plus by discriminate.
    replace (52 + (e - 52))%Z with e by lia. reflexivity. }
  rewrite Hs. apply Qmult_le_compat_r; [|lra].
  rewrite <- Zle_Qle. rewrite <- (rne_inject (2 ^ 52)) at 1. apply rne_le.
  apply Qle_shift_div_l; [exact Hu|]. rewrite <- Hs. exact H1.
Qed.

Lemma round64_pos_nonneg (x : Q) : 0 <= x -> 0 <= Js.round64_pos x.
Proof.
  intros Hx. unfold Js.round64_pos.
  set (u := 2 ^ (Z.max (Js.binade x) (-1022) - 52)).
  assert (Hu : 0 < u) by apply pow2_pos.
  clearbody u.
  apply Qmult_le_0_compat; [|lra].
  change 0 with (inject_Z 0). rewrite <- Zle_Qle.
  rewrite <- (rne_inject 0). apply rne_le.
  apply Qle_shift_div_l; [exact Hu|]. change (inject_Z 0) with 0. lra.
Qed.

Lemma round64_pos_le (x y : Q) :
  0 < x -> x <= y -> Js.round64_pos x <= Js.round64_pos y.
Proof.
  intros Hx Hxy.
  assert (Hy : 0 < y) by lra.
  pose proof (binade_le x y Hx Hxy) as Hb.
  destruct (Z.eq_dec (Z.max (Js.binade x) (-1022)) (Z.max (Js.binade y) (-1022))) as [E | E].
  - unfold Js.round64_pos. rewrite E.
    set (u := 2 ^ (Z.max (Js.binade y) (-1022) - 52)).
    assert (Hu : 0 < u) by apply pow2_pos.
    clearbody u.
    apply Qmult_le_compat_r; [|lra].
    rewrite <- Zle_Qle. apply rne_le.
    apply Qmult_le_compat_r; [exact Hxy|].
    apply Qlt_le_weak, Qinv_lt_0_compat. exact Hu.
  - apply Qle_trans with (2 ^ (Z.max (Js.binade x) (-1022) + 1));
      [apply round64_pos_upper; exact Hx|].
    apply Qle_trans with (2 ^ Js.binade y);
      [|apply round64_pos_lower; [exact Hy | lia]].
    apply Qpower_le_compat_l; [lia | discriminate].
Qed.

(** Rounding keeps the order of non-negative numbers. *)
Lemma round64_le (x y : Q) : 0 <= x -> x <= y -> Js.round64 x <= Js.round64 y.
Proof.
  intros Hx Hxy. unfold Js.round64.
  destruct (Qcompare_spec x 0) as [Ex | Ex | Ex]; [|exfalso; lra|].
  - destruct (Qcompare_spec y 0) as [Ey | Ey | Ey]; [lra | exfalso; lra|].
    apply round64_pos_nonneg. lra.
  - destruct (Qcompare_spec y 0) as [Ey | Ey | Ey]; [exfalso; lra | exfalso; lra|].
    apply round64_pos_le; assumption.
Qed.

(** No binary64 number lies strictly between [1 - 2^-53] and 1. *)
Lemma binary64_below_one (r : Q) :
  0 <= r -> r < 1 -> Js.binary64 r -> r <= 1 - (1 # 9007199254740992).
Proof.
  intros H0 H1 Hb.
  destruct (Qlt_le_dec (1 - (1 # 9007199254740992)) r) as [Hgt | Hle]; [exfalso | exact Hle].
  assert (Hr : 0 < r) by lra.
  unfold Js.binary64, Js.round64 in Hb.
  destruct (Qcompare_spec r 0) as [E | E | E]; [lra | lra |].
  destruct (binade_spec r Hr) as [B1 B2].
  assert (Hbin : Js.binade r = (-1)%Z).
  { assert (U : 2 ^ Js.binade r < 2 ^ 0) by (change (2 ^ 0) with 1; lra).
    apply Qpower_lt_compat_l_inv in U; [|reflexivity].
    assert (Ehalf : 2 ^ (-1) == 1 # 2) by reflexivity.
    assert (L : 2 ^ (-1) < 2 ^ (Js.binade r + 1)) by (rewrite Ehalf; lra).
    apply Qpower_lt_compat_l_inv in L; [|reflexivity]. lia. }
  unfold Js.round64_pos in Hb. rewrite Hbin in Hb.
  change (2 ^ (Z.max (-1) (-1022) - 52)) with (1 # 9007199254740992) in Hb.
  set (z := Js.rne (r / (1 # 9007199254740992))) in Hb.
  assert (Hlo : inject_Z 9007199254740991 < inject_Z z).
  { change (inject_Z 9007199254740991) with 9007199254740991. lra. }
  assert (Hhi : inject_Z z < inject_Z 9007199254740992).
  { change (inject_Z 9007199254740992) with 9007199254740992. lra. }
  rewrite <- Zlt_Qlt in Hlo, Hhi. lia.
Qed.

(** One weight, [Math.random() * c + d]: it lies between the rounded
    [d] and what the largest draw gives. *)
Lemma weight_in_range (r c d lo hi : Q) :
  0 <= c -> 0 <= d ->
  lo <= Js.round64 d ->
  Js.round64 (Js.round64 ((1 - (1 # 9007199254740992)) * c) + d) <= hi ->
  0 <= r -> r <= 1 - (1 # 9007199254740992) ->
  lo <= Js.add (Js.mul r c) d /\ Js.add (Js.mul r c) d <= hi.
Proof.
  intros Hc Hd Hlo Hhi Hr0 Hr1. unfold Js.add, Js.mul.
  assert (H0 : 0 <= r * c) by (apply Qmult_le_0_compat; assumption).
  assert (H1 : r * c <= (1 - (1 # 9007199254740992)) * c)
    by (apply Qmult_le_compat_r; assumption).
  pose proof (round64_le 0 (r * c) (Qle_refl 0) H0) as P0.
  change (Js.round64 0) with 0 in P0.
  pose proof (round64_le _ _ H0 H1) as P1.
  split.
  - eapply Qle_trans; [exact Hlo|]. apply round64_le; [exact Hd | lra].
  - eapply Qle_trans; [|exact Hhi]. apply round64_le; lra.
Qed.

End Binary64.

Ltac closed_le := apply Qle_bool_iff; vm_compute; reflexivity.

Lemma generateFeatureImportance_in_range (td : TransactionData) :
  (forall k, (0 <= random_src k)%Q /\ (random_src k < 1)%Q /\ Js.binary64 (random_src k)) ->
  ReturnsP (generateFeatureImportance td) weights_in_range.
Proof.
  intros Hrand w. unfold generateFeatureImportance.
  rewrite (bind_run _ _ _ _ _ (Math_random_run w)).
  set (w1 := after Math_random w).
  rewrite (bind_run _ _ _ _ _ (Math_random_run w1)).
  set (w2 := after Math_random w1).
  rewrite (bind_run _ _ _ _ _ (Math_random_run w2)).
  set (w3 := after Math_random w2).
  rewrite (bind_run _ _ _ _ _ (Math_random_run w3)).
  set (w4 := after Math_random w3).
  rewrite (bind_run _ _ _ _ _ (Math_random_run w4)).
  set (w5 := after Math_random w4).
  rewrite (bind_run _ _ _ _ _ (Math_random_run w5)).
  set (w6 := after Math_random w5).
  rewrite (bind_run _ _ _ _ _ (Math_random_run w6)).
  unfold ret. do 2 eexists. split; [reflexivity|].
  assert (Hw : forall k c d lo hi,
             (0 <= c)%Q -> (0 <= d)%Q ->
             (lo <= Js.round64 d)%Q ->
             (Js.round64 (Js.round64 ((1 - (1 # 9007199254740992)) * c) + d) <= hi)%Q ->
             (lo <= Js.add (Js.mul (random_src k) c) d)%Q /\
             (Js.add (Js.mul (random_src k) c) d <= hi)%Q).
  { intros k c d lo hi Hc Hd Hlo Hhi. destruct (Hrand k) as [R0 [R1 Rb]].
    apply weight_in_range; try assumption.
    apply binary64_below_one; assumption. }
  unfold weights_in_range.
  cbn [fi_amount fi_type fi_oldbalanceOrg fi_newbalanceOrig
       fi_oldbalanceDest fi_newbalanceDest fi_step].
  destruct (Hw (rand_pos w) (Js.lit 0.3) (Js.lit 0.2) (Js.lit 0.2) (Js.lit 0.5))
    as [L1 U1]; try closed_le.
  destruct (Hw (rand_pos w1) (Js.lit 0.25) (Js.lit 0.15) (Js.lit 0.15) (Js.lit 0.4))
    as [L2 U2]; try closed_le.
  destruct (Hw (rand_pos w2) (Js.lit 0.2) (Js.lit 0.1) (Js.lit 0.1) (Js.lit 0.3))
    as [L3 U3]; try closed_le.
  destruct (Hw (rand_pos w3) (Js.lit 0.2) (Js.lit 0.1) (Js.lit 0.1) (Js.lit 0.3))
    as [L4 U4]; try closed_le.
  destruct (Hw (rand_pos w4) (Js.lit 0.15) (Js.lit 0.05) (Js.lit 0.05) (Js.lit 0.2))
    as [L5 U5]; try closed_le.
  destruct (Hw (rand_pos w5) (Js.lit 0.15) (Js.lit 0.05) (Js.lit 0.05) (Js.lit 0.2))
    as [L6 U6]; try closed_le.
  destruct (Hw (rand_pos w6) (Js.lit 0.1) (Js.lit 0.05) (Js.lit 0.05) (Js.lit 0.15))
    as [L7 U7]; try closed_le.
  repeat split; assumption.
Qed.

(** X5: when [Math.random()] gives binary64 numbers of [0, 1), the
    feature weights of any result that [checkFraud] returns lie in the
    ranges they are drawn from, ends included: amount between 0.2 and
    0.5, type between 0.15 and 0.4, the origin balances between 0.1
    and 0.3, the destination balances between 0.05 and 0.2 and step
    between 0.05 and 0.15, each end being the binary64 number that its
    literal denotes. *)
Theorem returned_weights_in_range (td : TransactionData) (w w' : World) (res : FraudResult) :
  (forall k, (0 <= random_src k)%Q /\ (random_src k < 1)%Q /\ Js.binary64 (random_src k)) ->
  checkFraud td w = (Returned res, w') ->
  weights_in_range (featureImportance res).
Proof.
  intros Hrand H.
  assert (Hmock : forall w2, mock_analysis td w2 = (Returned res, w') ->
                             weights_in_range (featureImportance res)).
  { intros w2. unfold mock_analysis.
    rewrite (bind_run _ _ _ _ _ (Math_random_run w2)).
    destruct (generateFeatureImportance_in_range td Hrand (after Math_random w2))
      as [fi [w4 [E2 Hfi]]].
    rewrite (bind_run _ _ _ _ _ E2).
    rewrite (bind_run _ _ _ _ _ (Math_random_run w4)).
    unfold ret. intros Hm. injection Hm as <- _. exact Hfi. }
  destruct (retry_trace td (after throttle w)) as [o [w2 [new [Hr _]]]].
  destruct o as [[msg | r] | e2].
  - rewrite (checkFraud_on_null td w w2 msg Hr) in H.
    destruct (isRateLimitError (Error msg)); [|discriminate H].
    exact (Hmock w2 H).
  - rewrite (checkFraud_on_success td w w2 r Hr) in H. revert H. unfold enhance.
    destruct (Returns_placeholder (r_confidence r) 0.3 0.7 w2) as [c [w3 E1]].
    rewrite (bind_run _ _ _ _ _ E1).
    destruct (generateFeatureImportance_in_range td Hrand w3) as [fi [w4 [E2 Hfi]]].
    rewrite (bind_run _ _ _ _ _ E2).
    destruct (Returns_placeholder (r_processingTime r) 200 50 w4) as [pt [w5 E3]].
    rewrite (bind_run _ _ _ _ _ E3).
    unfold ret. intros H. injection H as <- _. exact Hfi.
  - rewrite (checkFraud_on_failure td w w2 e2 Hr) in H.
    destruct (isRateLimitError e2); [|discriminate H].
    exact (Hmock w2 H).
Qed.

(** ** The explanation list *)

Ltac explanation_cases td p :=
  unfold generateExplanation, push_if, EXPL_NORMAL, EXPL_HIGH;
  destruct (Js.gtb p 0.7), (Js.gtb (amount td) 10000),
    (String.eqb (type td) "CASH_OUT" || String.eqb (type td) "TRANSFER"),
    (Js.eqb (oldbalanceOrg td) 0 && Js.eqb (newbalanceOrig td) 0),
    (Js.gtb (step td) 500);
  cbn [app length Nat.eqb hd_error].

Ltac not_among :=
  let H := fresh in
  cbn [In]; intros H;
  repeat (destruct H as [H | H]; [discriminate H|]); exact H.

Lemma explanation_length (td : TransactionData) (p : Q) :
  (1 <= length (generateExplanation td p) <= 5)%nat.
Proof. explanation_cases td p; lia. Qed.

Lemma explanation_nodup (td : TransactionData) (p : Q) :
  NoDup (generateExplanation td p).
Proof.
  explanation_cases td p;
    repeat (apply NoDup_cons; [not_among|]); apply NoDup_nil.
Qed.

Lemma explanation_normal_alone (td : TransactionData) (p : Q) :
  In EXPL_NORMAL (generateExplanation td p) <-> generateExplanation td p = [EXPL_NORMAL].
Proof.
  explanation_cases td p; split; intros H;
    try reflexivity; try discriminate H; try (left; reflexivity);
    exfalso; revert H; not_among.
Qed.

Lemma explanation_normal_iff (td : TransactionData) (p : Q) :
  generateExplanation td p = [EXPL_NORMAL] <->
  Js.gtb p 0.7 = false /\
  Js.gtb (amount td) 10000 = false /\
  (String.eqb (type td) "CASH_OUT" || String.eqb (type td) "TRANSFER") = false /\
  (Js.eqb (oldbalanceOrg td) 0 && Js.eqb (newbalanceOrig td) 0) = false /\
  Js.gtb (step td) 500 = false.
Proof.
  explanation_cases td p; split; intros H;
    try discriminate H; try (repeat split; reflexivity);
    destruct H as [H1 [H2 [H3 [H4 H5]]]]; discriminate.
Qed.

Lemma explanation_high_first (td : TransactionData) (p : Q) :
  List.hd_error (generateExplanation td p) = Some EXPL_HIGH <-> Js.gtb p 0.7 = true.
Proof.
  explanation_cases td p; split; intros H; try reflexivity; discriminate H.
Qed.

(** X6: [generateExplanation] gives between one and five entries, all
    different; the "appears normal" entry is there exactly when it is
    the whole list, which is exactly when none of the five rules fires;
    and the list starts with the "high fraud probability" entry exactly
    when the probability exceeds 0.7. *)
Theorem explanation_structure (td : TransactionData) (p : Q) :
  (1 <= length (generateExplanation td p) <= 5)%nat /\
  NoDup (generateExplanation td p) /\
  (In EXPL_NORMAL (generateExplanation td p) <-> generateExplanation td p = [EXPL_NORMAL]) /\
  (generateExplanation td p = [EXPL_NORMAL] <->
   Js.gtb p 0.7 = false /\
   Js.gtb (amount td) 10000 = false /\
   (String.eqb (type td) "CASH_OUT" || String.eqb (type td) "TRANSFER") = false /\
   (Js.eqb (oldbalanceOrg td) 0 && Js.eqb (newbalanceOrig td) 0) = false /\
   Js.gtb (step td) 500 = false) /\
  (List.hd_error (generateExplanation td p) = Some EXPL_HIGH <-> Js.gtb p 0.7 = true).
Proof.
  split; [apply explanation_length|].
  split; [apply explanation_nodup|].
  split; [apply explanation_normal_alone|].
  split; [apply explanation_normal_iff | apply explanation_high_first].
Qed.

(** ** The content of synthesized records *)

Lemma types_at_unit (r : Q) :
  (0 <= r)%Q -> (r < 1)%Q ->
  exists t,
    types_at (Js.floor (r * inject_Z (Z.of_nat (length types)))) = Some t /\ In t types.
Proof.
  intros H0 H1. unfold Js.floor.
  change (inject_Z (Z.of_nat (length types))) with 5%Q.
  set (k := Qfloor (r * 5)).
  assert (Hk0 : (0 <= k)%Z).
  { change 0%Z with (Qfloor 0). apply Qfloor_resp_le. lra. }
  assert (Hk5 : (k < 5)%Z).
  { rewrite Zlt_Qlt. eapply Qle_lt_trans; [apply Qfloor_le|].
    change (inject_Z 5) with 5%Q. lra. }
  assert (Hk : (k = 0 \/ k = 1 \/ k = 2 \/ k = 3 \/ k = 4)%Z) by lia.
  unfold types.
  destruct Hk as [-> | [-> | [-> | [-> | ->]]]]; eexists; (split; [reflexivity|]);
    cbn [In]; auto 6.
Qed.

Lemma mock_loop_plausible (limit : Z) :
  (forall k, (0 <= random_src k)%Q /\ (random_src k < 1)%Q) ->
  forall fuel i history w,
    Forall plausible history ->
    exists h w',
      mock_loop limit fuel i history w = (Returned h, w') /\ Forall plausible h.
Proof.
  intros Hrand. induction fuel as [|fuel IH]; intros i history w Hall.
  - exists history, w. split; [reflexivity | exact Hall].
  - cbn [mock_loop]. destruct (i <? limit)%Z.
    + rewrite (bind_run _ _ _ _ _ (Math_random_run w)).
      set (w1 := after Math_random w).
      rewrite (bind_run _ _ _ _ _ (Date_now_run w1)).
      set (w2 := after Date_now w1).
      rewrite (bind_run _ _ _ _ _ (Date_now_run w2)).
      set (w3 := after Date_now w2).
      rewrite (bind_run _ _ _ _ _ (Math_random_run w3)).
      set (w4 := after Math_random w3).
      rewrite (bind_run _ _ _ _ _ (Math_random_run w4)).
      set (w5 := after Math_random w4).
      rewrite (bind_run _ _ _ _ _ (Math_random_run w5)).
      set (w6 := after Math_random w5).
      apply IH. apply Forall_app. split; [exact Hall|].
      constructor; [|constructor].
      unfold plausible. cbn [h_type h_amount h_fraudProbability].
      destruct (Hrand (rand_pos w)) as [Ha Hb].
      destruct (Hrand (rand_pos w4)) as [Hc Hd].
      destruct (Hrand (rand_pos w5)) as [He Hf].
      split; [apply types_at_unit; assumption|].
      repeat split; lra.
    + exists history, w. split; [reflexivity | exact Hall].
Qed.

(** X7: every record of a synthesized history has one of the five
    transaction types, an amount in [100, 50100) and a probability in
    [0, 1). *)
Theorem synthesized_records_are_plausible (limit : Z) (w : World) :
  (forall k, (0 <= random_src k)%Q /\ (random_src k < 1)%Q) ->
  served (history_src (net_pos w)) = None ->
  exists h w',
    getTransactionHistory limit w = (Returned h, w') /\
    Forall plausible h.
Proof.
  intros Hrand Hfail. rewrite getTransactionHistory_run, Hfail.
  unfold generateMockHistory.
  destruct (mock_loop_plausible limit Hrand (Z.to_nat limit) 0%Z []
              (after (fetch history_src) w) (Forall_nil _)) as [h [w' [Hrun Hall]]].
  rewrite (bind_run _ _ _ _ _ Hrun). exists (sort_history h), w'.
  split; [reflexivity|].
  eapply Permutation_Forall; [apply Permutation_sym, sort_history_perm | exact Hall].
Qed.

(** ** The Analyze button *)

Lemma handleAnalyze_returned (s0 : AnalyzerState) (w w' : World) (res : FraudResult) :
  checkFraud (formData s0) w = (Returned res, w') ->
  handleAnalyze s0 w =
  (Returned
     {| formData := formData s0;
        a_result := Some res;
        a_loading := false;
        analysisHistory := slice_first 5 (res :: analysisHistory s0);
        rateLimitWarning := Js.includes (modelVersion res) "mock";
        alerts := alerts s0 |}, w').
Proof.
  intros E. unfold handleAnalyze, bind, try_catch.
  cbn [formData setRateLimitWarning setLoading]. rewrite E. unfold ret.
  destruct (Js.includes (modelVersion res) "mock"); reflexivity.
Qed.

Lemma handleAnalyze_raised (s0 : AnalyzerState) (w w' : World) (e : JsError) :
  checkFraud (formData s0) w = (Raised e, w') ->
  handleAnalyze s0 w =
  (Returned
     {| formData := formData s0;
        a_result := a_result s0;
        a_loading := false;
        analysisHistory := analysisHistory s0;
        rateLimitWarning := false;
        alerts := ALERT_FAILED :: alerts s0 |}, w').
Proof.
  intros E. pose proof (raised_not_rate_limit _ _ _ _ E) as Hno.
  unfold handleAnalyze, bind, try_catch.
  cbn [formData setRateLimitWarning setLoading]. rewrite E, Hno. reflexivity.
Qed.

(** X8: [handleAnalyze] always settles with [loading] off and the form
    untouched.  Either the call returned: the result is shown, put at
    the head of the history, which keeps its five newest entries, and
    the warning banner is on exactly when the model version contains
    "mock"; or the call threw: result and history stay, the banner is
    off and the one dialog shown is the generic failure one, never
    the rate-limit one. *)
Theorem handleAnalyze_settles (s0 : AnalyzerState) (w : World) :
  exists s w',
    handleAnalyze s0 w = (Returned s, w') /\
    a_loading s = false /\
    formData s = formData s0 /\
    (length (analysisHistory s0) <= 5 -> length (analysisHistory s) <= 5)%nat /\
    ((exists res,
         checkFraud (formData s0) w = (Returned res, w') /\
         a_result s = Some res /\
         analysisHistory s = firstn 5 (res :: analysisHistory s0) /\
         rateLimitWarning s = Js.includes (modelVersion res) "mock" /\
         alerts s = alerts s0) \/
     (exists e,
         checkFraud (formData s0) w = (Raised e, w') /\
         a_result s = a_result s0 /\
         analysisHistory s = analysisHistory s0 /\
         rateLimitWarning s = false /\
         alerts s = ALERT_FAILED :: alerts s0)).
Proof.
  destruct (checkFraud (formData s0) w) as [[res | e] w'] eqn:E.
  - eexists. exists w'. split; [apply handleAnalyze_returned; exact E|].
    cbn [a_loading formData analysisHistory alerts a_result rateLimitWarning].
    split; [reflexivity|]. split; [reflexivity|].
    split; [intros _; unfold slice_first; rewrite length_firstn; lia|].
    left. exists res. repeat split.
  - eexists. exists w'. split; [apply (handleAnalyze_raised s0 w w' e E)|].
    cbn [a_loading formData analysisHistory alerts a_result rateLimitWarning].
    split; [reflexivity|]. split; [reflexivity|].
    split; [tauto|].
    right. exists e. repeat split.
Qed.

(** X9: when every attempt is answered 429, pressing Analyze shows a
    result tagged "v2.1.0-mock" with the warning banner on and no
    dialog. *)
Theorem handleAnalyze_rate_limited (s0 : AnalyzerState) (w : World) :
  (forall k, status_of (score_src k) = Some 429%Z) ->
  exists s w' res,
    handleAnalyze s0 w = (Returned s, w') /\
    a_result s = Some res /\
    modelVersion res = "v2.1.0-mock" /\
    List.hd_error (analysisHistory s) = Some res /\
    rateLimitWarning s = true /\
    a_loading s = false /\
    alerts s = alerts s0.
Proof.
  intros H429.
  destruct (degraded_run (formData s0) w (all_429_degraded (formData s0) w H429))
    as [r [fi [pt [w' E]]]].
  eexists. exists w'. eexists.
  split; [apply handleAnalyze_returned; exact E|].
  cbn [a_result modelVersion analysisHistory rateLimitWarning a_loading alerts].
  repeat split.
Qed.

(** ** The chart series of the home page *)

(** X10: the chart keeps a window of the ten newest points.  Below
    ten points the new one is appended under the label "Tx" followed
    by its position; at ten points the oldest is dropped and the new
    one is labelled "Tx11", so from then on every new point carries
    that same label. *)
Theorem chart_window (p : Q) (prev : list ChartPoint) :
  ((length prev < 10)%nat ->
   pushChartPoint p prev =
   prev ++ [ {| cp_name := "Tx" ++ Js.show (Z.of_nat (length prev) + 1);
                cp_probability := p |} ]) /\
  (length prev = 10%nat ->
   pushChartPoint p prev =
   tl prev ++ [ {| cp_name := "Tx11"; cp_probability := p |} ]) /\
  ((length prev <= 10)%nat -> (length (pushChartPoint p prev) <= 10)%nat).
Proof.
  unfold pushChartPoint, slice_last. repeat split.
  - intros H. rewrite length_app. cbn [length].
    replace (length prev + 1 - 10)%nat with 0%nat by lia. reflexivity.
  - intros H. rewrite length_app, H. cbn [length Nat.add Nat.sub].
    destruct prev as [|x prev]; [discriminate H|]. reflexivity.
  - intros H. rewrite length_skipn, length_app. cbn [length]. lia.
Qed.

(** ** The charts page *)

Lemma count_if_cons (f : HistoryRecord -> bool) (tx : HistoryRecord) (l : list HistoryRecord) :
  count_if f (tx :: l) = ((if f tx then 1 else 0) + count_if f l)%Z.
Proof.
  unfold count_if. cbn [filter]. destruct (f tx); cbn [length]; lia.
Qed.

Lemma count_if_bounds (f : HistoryRecord -> bool) (l : list HistoryRecord) :
  (0 <= count_if f l <= Z.of_nat (length l))%Z.
Proof.
  unfold count_if. pose proof (filter_length_le f l). lia.
Qed.

Lemma risk_fold (txs : list HistoryRecord) :
  forall stats : RiskStats,
    let stats' :=
      fold_left (fun stats tx => countLevel stats (h_riskLevel tx)) txs stats in
    st_LOW stats' =
      {| rs_name := rs_name (st_LOW stats);
         rs_value := rs_value (st_LOW stats) + count_if (isLevel LOW) txs;
         rs_color := rs_color (st_LOW stats) |} /\
    st_MEDIUM stats' =
      {| rs_name := rs_name (st_MEDIUM stats);
         rs_value := rs_value (st_MEDIUM stats) + count_if (isLevel MEDIUM) txs;
         rs_color := rs_color (st_MEDIUM stats) |} /\
    st_HIGH stats' =
      {| rs_name := rs_name (st_HIGH stats);
         rs_value := rs_value (st_HIGH stats) + count_if (isLevel HIGH) txs;
         rs_color := rs_color (st_HIGH stats) |} /\
    st_CRITICAL stats' =
      {| rs_name := rs_name (st_CRITICAL stats);
         rs_value := rs_value (st_CRITICAL stats) + count_if (isLevel CRITICAL) txs;
         rs_color := rs_color (st_CRITICAL stats) |}.
Proof.
  induction txs as [|tx txs IH]; intros stats; cbn zeta.
  - unfold count_if. cbn [fold_left filter length Z.of_nat].
    rewrite !Z.add_0_r.
    destruct stats as [[] [] [] []]; repeat split.
  - cbn [fold_left].
    destruct (IH (countLevel stats (h_riskLevel tx))) as [H1 [H2 [H3 H4]]].
    rewrite H1, H2, H3, H4, !count_if_cons.
    change (isLevel LOW tx) with (match h_riskLevel tx with LOW => true | _ => false end).
    change (isLevel MEDIUM tx) with (match h_riskLevel tx with MEDIUM => true | _ => false end).
    change (isLevel HIGH tx) with (match h_riskLevel tx with HIGH => true | _ => false end).
    change (isLevel CRITICAL tx)
      with (match h_riskLevel tx with CRITICAL => true | _ => false end).
    destruct (h_riskLevel tx); cbn [countLevel st_LOW st_MEDIUM st_HIGH st_CRITICAL
                                    bumpSlice rs_name rs_value rs_color];
      repeat split; f_equal; lia.
Qed.

(** X11: [processRiskLevels] always gives four slices, for LOW,
    MEDIUM, HIGH and CRITICAL in that order; the value of each is the
    number of transactions of that level, and the four values add up
    to the number of transactions. *)
Theorem processRiskLevels_counts (txs : list HistoryRecord) :
  map rs_name (processRiskLevels txs)
  = ["Low Risk"; "Medium Risk"; "High Risk"; "Critical Risk"] /\
  map rs_value (processRiskLevels txs)
  = [count_if (isLevel LOW) txs; count_if (isLevel MEDIUM) txs;
     count_if (isLevel HIGH) txs; count_if (isLevel CRITICAL) txs] /\
  (count_if (isLevel LOW) txs + count_if (isLevel MEDIUM) txs
   + count_if (isLevel HIGH) txs + count_if (isLevel CRITICAL) txs
   = Z.of_nat (length txs))%Z.
Proof.
  unfold processRiskLevels. cbn zeta.
  match goal with
  | |- context [fold_left ?f txs ?s0] =>
      destruct (risk_fold txs s0) as [H1 [H2 [H3 H4]]]
  end.
  cbn zeta in H1, H2, H3, H4. cbn [map]. rewrite H1, H2, H3, H4.
  cbn [rs_name rs_value st_LOW st_MEDIUM st_HIGH st_CRITICAL].
  split; [reflexivity|]. split; [reflexivity|].
  clear H1 H2 H3 H4. induction txs as [|tx txs IH]; [reflexivity|].
  rewrite !count_if_cons. cbn [length].
  change (isLevel LOW tx) with (match h_riskLevel tx with LOW => true | _ => false end).
  change (isLevel MEDIUM tx) with (match h_riskLevel tx with MEDIUM => true | _ => false end).
  change (isLevel HIGH tx) with (match h_riskLevel tx with HIGH => true | _ => false end).
  change (isLevel CRITICAL tx)
    with (match h_riskLevel tx with CRITICAL => true | _ => false end).
  destruct (h_riskLevel tx); lia.
Qed.

Ltac q_facts :=
  repeat match goal with
         | H : Qle_bool _ _ = true |- _ => apply Qle_bool_iff in H
         | H : Qle_bool ?a ?b = false |- _ =>
             assert (~ (a <= b)%Q)
               by (let K := fresh in intros K; apply Qle_bool_iff in K; congruence);
             clear H
         end.

Lemma countTransaction_tally (tx : HistoryRecord) (rs : list AmountRange) :
  map bounds rs = map bounds amountRanges ->
  countTransaction tx rs = map (fun r => tally r [tx]) rs.
Proof.
  intros H.
  destruct rs as [|r1 [|r2 [|r3 [|r4 [|r5 [|r6 rs]]]]]]; try discriminate H.
  destruct r1 as [n1 a1 b1 c1 f1], r2 as [n2 a2 b2 c2 f2], r3 as [n3 a3 b3 c3 f3],
           r4 as [n4 a4 b4 c4 f4], r5 as [n5 a5 b5 c5 f5].
  unfold bounds, amountRanges in H. cbn [map ar_name ar_min ar_max] in H.
  injection H as -> -> -> -> -> -> -> -> -> -> -> -> -> -> ->.
  unfold tally, count_if.
  cbn [countTransaction map filter ar_name ar_min ar_max ar_count ar_fraud].
  unfold inRange, Js.ltb. cbn [ar_min ar_max].
  destruct (Qle_bool 0 (h_amount tx)) eqn:E0,
           (Qle_bool 1000 (h_amount tx)) eqn:E1,
           (Qle_bool 5000 (h_amount tx)) eqn:E2,
           (Qle_bool 10000 (h_amount tx)) eqn:E3,
           (Qle_bool 25000 (h_amount tx)) eqn:E4;
    try (exfalso; q_facts; lra);
    cbn [andb negb];
    destruct (h_flagged tx); unfold countIn;
    cbn [length Z.of_nat Pos.of_succ_nat ar_name ar_min ar_max ar_count ar_fraud];
    repeat (f_equal; try lia).
Qed.

Lemma count_if_ext (f g : HistoryRecord -> bool) (l : list HistoryRecord) :
  (forall tx, f tx = g tx) -> count_if f l = count_if g l.
Proof.
  intros H. unfold count_if. rewrite (filter_ext f g H). reflexivity.
Qed.

Lemma tally_more (r : AmountRange) (tx : HistoryRecord) (txs : list HistoryRecord) :
  tally (tally r [tx]) txs = tally r (tx :: txs).
Proof.
  unfold tally at 1.
  rewrite (count_if_ext (fun t => inRange (h_amount t) (tally r [tx]))
                        (fun t => inRange (h_amount t) r) txs) by reflexivity.
  rewrite (count_if_ext (fun t => inRange (h_amount t) (tally r [tx]) && h_flagged t)
                        (fun t => inRange (h_amount t) r && h_flagged t) txs)
    by reflexivity.
  unfold tally. cbn [ar_name ar_min ar_max ar_count ar_fraud].
  rewrite !(count_if_cons _ tx txs), !(count_if_cons _ tx []).
  unfold count_if at 1 3. cbn [filter length Z.of_nat].
  f_equal; lia.
Qed.

Lemma fold_tally (txs : list HistoryRecord) :
  forall rs,
    map bounds rs = map bounds amountRanges ->
    fold_left (fun ranges tx => countTransaction tx ranges) txs rs
    = map (fun r => tally r txs) rs.
Proof.
  induction txs as [|tx txs IH]; intros rs H.
  - cbn [fold_left]. symmetry. erewrite map_ext; [apply map_id|].
    intros [n a b c f]. unfold tally, count_if.
    cbn [filter length Z.of_nat ar_name ar_min ar_max ar_count ar_fraud].
    f_equal; lia.
  - cbn [fold_left]. rewrite (countTransaction_tally tx rs H).
    rewrite IH.
    + rewrite map_map. apply map_ext. intros r. apply tally_more.
    + rewrite map_map. rewrite <- H. apply map_ext. intros r. reflexivity.
Qed.



Lemma sum_of_tallies (txs : list HistoryRecord) :
  sumCounts (map (fun r => tally r txs) amountRanges)
  = count_if (fun tx => Qle_bool 0 (h_amount tx)) txs.
Proof.
  unfold amountRanges, sumCounts, tally.
  cbn [map fold_right ar_count ar_min ar_max].
  induction txs as [|tx txs IH].
  - reflexivity.
  - rewrite !count_if_cons. unfold inRange at 1 3 5 7 9. unfold Js.ltb.
    cbn [ar_min ar_max].
    destruct (Qle_bool 0 (h_amount tx)) eqn:E0,
             (Qle_bool 1000 (h_amount tx)) eqn:E1,
             (Qle_bool 5000 (h_amount tx)) eqn:E2,
             (Qle_bool 10000 (h_amount tx)) eqn:E3,
             (Qle_bool 25000 (h_amount tx)) eqn:E4;
      try (exfalso; q_facts; lra);
      cbn [andb negb]; lia.
Qed.

Lemma processAmountDistribution_run (txs : list HistoryRecord) :
  processAmountDistribution txs
  = map (fun r => {| ab_range := tally r txs; ab_fraudRate := fraudRateOf (tally r txs) |})
        amountRanges.
Proof.
  unfold processAmountDistribution. cbn zeta.
  rewrite (fold_tally txs amountRanges eq_refl), map_map. reflexivity.
Qed.

Lemma count_if_all (f : HistoryRecord -> bool) (l : list HistoryRecord) :
  Forall (fun tx => f tx = true) l -> count_if f l = Z.of_nat (length l).
Proof.
  intros H. induction H as [|tx l Hx _ IH]; [reflexivity|].
  rewrite count_if_cons, Hx, IH. cbn [length]. lia.
Qed.


(** X13: the charts of a synthesized history leave no record out:
    when the request for the history fails, the counts of the amount
    bands of what [getTransactionHistory] returns add up to the limit
    asked for. *)
Theorem synthesized_history_fills_bands (limit : Z) (w : World) :
  (forall k, (0 <= random_src k)%Q /\ (random_src k < 1)%Q) ->
  served (history_src (net_pos w)) = None ->
  exists h w',
    getTransactionHistory limit w = (Returned h, w') /\
    sumCounts (map ab_range (processAmountDistribution h)) = Z.max 0 limit.
Proof.
  intros Hrand Hfail. rewrite getTransactionHistory_run, Hfail.
  destruct (generateMockHistory_spec limit (after (fetch history_src) w) Hrand)
    as [h [w' [Hrun [Hlen _]]]].
  exists h, w'. split; [exact Hrun|].
  assert (Hall : Forall plausible h).
  { revert Hrun. unfold generateMockHistory.
    destruct (mock_loop_plausible limit Hrand (Z.to_nat limit) 0%Z []
                (after (fetch history_src) w) (Forall_nil _)) as [h0 [w0 [Hr Hp]]].
    rewrite (bind_run _ _ _ _ _ Hr). unfold ret. intros Hrun. injection Hrun as <- _.
    eapply Permutation_Forall; [apply Permutation_sym, sort_history_perm | exact Hp]. }
  rewrite processAmountDistribution_run, map_map. cbn [ab_range].
  rewrite sum_of_tallies, <- Hlen. apply count_if_all.
  eapply Forall_impl; [|exact Hall]. intros tx [_ [Hlo _]].
  apply Qle_bool_iff. lra.
Qed.

(** ** The time a call spends waiting *)





(** ** Identifiers of synthesized records *)

Lemma show_injective (a b : Z) : Js.show a = Js.show b -> a = b.
Proof.
  unfold Js.show. intros H. apply DecimalZ.to_int_inj.
  assert (Hnz : forall z, Z.to_int z <> Decimal.Pos Decimal.Nil /\
                          Z.to_int z <> Decimal.Neg Decimal.Nil).
  { intros [|p|p]; cbn; split; try discriminate;
      intros E; injection E as E; exact (DecimalPos.Unsigned.to_uint_nonnil p E). }
  pose proof (NilZero.isi (Z.to_int a) (proj1 (Hnz a)) (proj2 (Hnz a))) as Ha.
  pose proof (NilZero.isi (Z.to_int b) (proj1 (Hnz b)) (proj2 (Hnz b))) as Hb.
  rewrite H in Ha. rewrite Ha in Hb. injection Hb as Hb. exact Hb.
Qed.

Lemma digits_no_underscore (d : Decimal.uint) :
  has_char "_" (NilEmpty.string_of_uint d) = false.
Proof.
  induction d; cbn [NilEmpty.string_of_uint has_char]; try rewrite IHd; reflexivity.
Qed.

Lemma show_no_underscore (z : Z) : has_char "_" (Js.show z) = false.
Proof.
  unfold Js.show, NilZero.string_of_int, NilZero.string_of_uint.
  destruct (Z.to_int z) as [d | d]; destruct d;
    try reflexivity;
    cbn [has_char Ascii.eqb Bool.eqb orb];
    try apply (digits_no_underscore (Decimal.D0 d));
    try apply (digits_no_underscore (Decimal.D1 d));
    try apply (digits_no_underscore (Decimal.D2 d));
    try apply (digits_no_underscore (Decimal.D3 d));
    try apply (digits_no_underscore (Decimal.D4 d));
    try apply (digits_no_underscore (Decimal.D5 d));
    try apply (digits_no_underscore (Decimal.D6 d));
    try apply (digits_no_underscore (Decimal.D7 d));
    try apply (digits_no_underscore (Decimal.D8 d));
    try apply (digits_no_underscore (Decimal.D9 d)).
Qed.

Lemma split_at_underscore (a a' b b' : string) :
  has_char "_" a = false -> has_char "_" a' = false ->
  (a ++ "_" ++ b = a' ++ "_" ++ b')%string -> b = b'.
Proof.
  revert a'. induction a as [|c a IH]; intros a' Ha Ha' H.
  - destruct a' as [|c' a'].
    + cbn in H. injection H as H. exact H.
    + cbn in H. injection H as Hc _. subst c'. cbn in Ha'. discriminate Ha'.
  - destruct a' as [|c' a'].
    + cbn in H. injection H as Hc _. subst c. cbn in Ha. discriminate Ha.
    + cbn [has_char] in Ha, Ha'. apply orb_false_iff in Ha, Ha'.
      cbn in H. injection H as _ H. apply (IH a'); tauto.
Qed.

Lemma id_index (now now' j j' : Z) :
  ("tx_" ++ Js.show now ++ "_" ++ Js.show j = "tx_" ++ Js.show now' ++ "_" ++ Js.show j')%string ->
  j = j'.
Proof.
  intros H. cbn [String.append] in H. injection H as H.
  apply show_injective.
  exact (split_at_underscore _ _ _ _ (show_no_underscore now) (show_no_underscore now') H).
Qed.

Lemma mock_loop_ids (limit : Z) :
  forall fuel i history w,
    (0 <= i)%Z -> ids_below i history ->
    exists h w' i',
      mock_loop limit fuel i history w = (Returned h, w') /\ ids_below i' h.
Proof.
  induction fuel as [|fuel IH]; intros i history w Hi Hids.
  - exists history, w, i. split; [reflexivity | exact Hids].
  - cbn [mock_loop]. destruct (i <? limit)%Z.
    + rewrite (bind_run _ _ _ _ _ (Math_random_run w)).
      set (w1 := after Math_random w).
      rewrite (bind_run _ _ _ _ _ (Date_now_run w1)).
      set (w2 := after Date_now w1).
      rewrite (bind_run _ _ _ _ _ (Date_now_run w2)).
      set (w3 := after Date_now w2).
      rewrite (bind_run _ _ _ _ _ (Math_random_run w3)).
      set (w4 := after Math_random w3).
      rewrite (bind_run _ _ _ _ _ (Math_random_run w4)).
      set (w5 := after Math_random w4).
      rewrite (bind_run _ _ _ _ _ (Math_random_run w5)).
      set (w6 := after Math_random w5).
      apply IH; [lia|].
      destruct Hids as [Hshape Hnodup]. split.
      * apply Forall_app. split.
        -- eapply Forall_impl; [|exact Hshape].
           intros rec [now [j [E Hj]]]. exists now, j. split; [exact E | lia].
        -- constructor; [|constructor]. cbn [h_id].
           exists (clock w2), i. split; [reflexivity | lia].
      * rewrite map_app. cbn [map h_id].
        apply (Permutation_NoDup (Permutation_cons_append _ _)).
        constructor; [|exact Hnodup].
        intros Hin. apply in_map_iff in Hin. destruct Hin as [rec [E Hrec]].
        rewrite Forall_forall in Hshape.
        destruct (Hshape rec Hrec) as [now [j [E' Hj]]].
        rewrite E' in E. apply id_index in E. lia.
    + exists history, w, i. split; [reflexivity | exact Hids].
Qed.

(** X15: the records of a synthesized history have pairwise different
    identifiers, whatever the clock and the random numbers. *)
Theorem synthesized_ids_are_distinct (limit : Z) (w : World) :
  served (history_src (net_pos w)) = None ->
  exists h w',
    getTransactionHistory limit w = (Returned h, w') /\
    NoDup (map h_id h).
Proof.
  intros Hfail. rewrite getTransactionHistory_run, Hfail.
  unfold generateMockHistory.
  destruct (mock_loop_ids limit (Z.to_nat limit) 0%Z [] (after (fetch history_src) w))
    as [h [w' [i' [Hrun [_ Hnodup]]]]]; [lia | split; constructor |].
  rewrite (bind_run _ _ _ _ _ Hrun). exists (sort_history h), w'.
  split; [reflexivity|].
  apply (Permutation_NoDup (Permutation_map h_id (Permutation_sym (sort_history_perm h)))).
  exact Hnodup.
Qed.

End Api.

(** * Concrete runs *)

Lemma steady_lag_nonneg : forall k, (0 <= steady_lag k)%Z.
Proof. intros k. unfold steady_lag. lia. Defined.

Lemma steady_random_unit : forall k, (0 <= steady_random k)%Q /\ (steady_random k < 1)%Q.
Proof. intros k. unfold steady_random. split; [discriminate | reflexivity]. Defined.


(** C1, as the claim states it, fails when a timer fires before its
    delay has elapsed on the clock that [Date.now()] reads: the second
    call waits the full 2000 ms it computed, its timer fires 1 ms
    early, and its first request starts 1999 ms after the first
    request of the call before. *)
Lemma early_timer_counterexample :
  rev (events (after (session early_timer steady_random unflagged_high_score
                              [sample_payment; sample_payment]) start_world))
  = [Dispatched 1700000000000; Fetched 1700000000000;
     Slept 2000;
     Dispatched 1700000001999; Fetched 1700000001999]%Z /\
  ~ spaced (rev (first_requests (events
      (after (session early_timer steady_random unflagged_high_score
                      [sample_payment; sample_payment]) start_world)))).
Proof.
  split; [vm_compute; reflexivity|].
  assert (E : rev (first_requests (events
                (after (session early_timer steady_random unflagged_high_score
                                [sample_payment; sample_payment]) start_world)))
              = [1700000000000; 1700000001999]%Z) by (vm_compute; reflexivity).
  rewrite E. unfold spaced, MIN_REQUEST_INTERVAL. intros [H _]. lia.
Qed.

(** Two calls in a row against a backend that answers at once: the
    second call is made 10 ms after the first dispatch, waits the
    remaining 1990 ms, and starts its request 2010 ms after the first
    one. *)
Lemma consecutive_dispatches_spaced_witness :
  dispatches (events start_world) = [] /\
  rev (events (after (session steady_lag steady_random unflagged_high_score
                              [sample_payment; sample_payment]) start_world))
  = [Dispatched 1700000000010; Fetched 1700000000010;
     Slept 1990;
     Dispatched 1700000002020; Fetched 1700000002020]%Z /\
  spaced (rev (first_requests (events
    (after (session steady_lag steady_random unflagged_high_score
                    [sample_payment; sample_payment]) start_world)))) /\
  first_requests (events
    (after (session steady_lag steady_random unflagged_high_score
                    [sample_payment; sample_payment]) start_world))
  = dispatches (events
    (after (session steady_lag steady_random unflagged_high_score
                    [sample_payment; sample_payment]) start_world)).
Proof.
  split; [reflexivity|]. split; [vm_compute; reflexivity|].
  destruct (consecutive_dispatches_spaced steady_lag steady_random unflagged_high_score
              steady_lag_nonneg [sample_payment; sample_payment] start_world eq_refl)
    as [Hspaced [Hsame _]].
  split; [exact Hspaced | exact Hsame].
Defined.


Lemma all_429_returns_mock_witness :
  (forall k, status_of (always_429 k) = Some 429%Z) /\
  exists res w',
    checkFraud steady_lag steady_random always_429 sample_payment start_world
    = (Returned res, w') /\
    (0 <= fraudProbability res)%Q /\
    (fraudProbability res < 0.8)%Q /\
    flagged res = Js.gtb (fraudProbability res) 0.5 /\
    riskLevel res = getRiskLevel (fraudProbability res) /\
    confidence res = 0.85%Q /\
    Js.endsWith (modelVersion res) "-mock" = true /\
    List.hd_error (explanation res) = Some RATE_LIMIT_WARNING.
Proof.
  split; [intros k; reflexivity|].
  apply (all_429_returns_mock steady_lag steady_random always_429
           sample_payment start_world steady_random_unit).
  intros k. reflexivity.
Defined.

Lemma always_429_degraded :
  degraded steady_lag always_429 sample_payment start_world.
Proof.
  apply all_429_degraded. intros k. reflexivity.
Defined.

(** C5, as the claim states it, fails: for the sample payment the
    derived explanations are the single large-amount entry, and the
    degraded result carries the warning alone. *)
Lemma explanation_prepend_counterexample :
  exists res w',
    checkFraud steady_lag steady_random always_429 sample_payment start_world
    = (Returned res, w') /\
    generateExplanation sample_payment (fraudProbability res)
    = ["💰 Large transaction amount increases risk"] /\
    explanation res = [RATE_LIMIT_WARNING] /\
    explanation res <>
    RATE_LIMIT_WARNING :: generateExplanation sample_payment (fraudProbability res).
Proof.
  do 2 eexists. split; [vm_compute; reflexivity|].
  cbn [fraudProbability explanation].
  split; [vm_compute; reflexivity|]. split; [vm_compute; reflexivity|].
  vm_compute. discriminate.
Qed.

Lemma degraded_explanation_replaces_first_witness :
  degraded steady_lag always_429 sample_payment start_world /\
  exists res w' first rest,
    checkFraud steady_lag steady_random always_429 sample_payment start_world
    = (Returned res, w') /\
    generateExplanation sample_payment (fraudProbability res) = first :: rest /\
    explanation res = RATE_LIMIT_WARNING :: rest.
Proof.
  split; [exact always_429_degraded|].
  exact (degraded_explanation_replaces_first steady_lag steady_random always_429
           sample_payment start_world always_429_degraded).
Defined.

Lemma degraded_never_critical_witness :
  degraded steady_lag always_429 sample_payment start_world /\
  exists res w',
    checkFraud steady_lag steady_random always_429 sample_payment start_world
    = (Returned res, w') /\
    Js.endsWith (modelVersion res) "-mock" = true /\
    riskLevel res <> CRITICAL /\
    (riskLevel res = LOW \/ riskLevel res = MEDIUM \/ riskLevel res = HIGH).
Proof.
  split; [exact always_429_degraded|].
  exact (degraded_never_critical steady_lag steady_random always_429
           sample_payment start_world steady_random_unit always_429_degraded).
Defined.



(** A plain server error on all three attempts reaches the caller. *)
Lemma server_error_propagates :
  exists w',
    checkFraud steady_lag steady_random always_500 sample_payment start_world
    = (Raised (Error "API request failed: 500 Internal Server Error"), w').
Proof.
  apply (checkFraud_propagates steady_lag steady_random always_500 sample_payment
           start_world
           (Error "API request failed: 500 Internal Server Error")
           (Error "API request failed: 500 Internal Server Error"));
    reflexivity.
Qed.

(** C3, at the failing input: every attempt is answered 502, a status
    that is not 429, with a reason phrase that contains the digits 429;
    the error message built from it passes the rate-limit test, and the
    call returns the simulated result where the failure should have
    reached the caller. *)
Theorem gateway_error_is_taken_for_rate_limit :
  (forall k, status_of (always_502_naming_429 k) = Some 502%Z) /\
  attempt_result (always_502_naming_429 0) =
    Raised (Error "API request failed: 502 Bad Gateway (upstream 429)") /\
  isRateLimitError (Error "API request failed: 502 Bad Gateway (upstream 429)") = true /\
  exists res w',
    checkFraud steady_lag steady_random always_502_naming_429 sample_payment start_world
    = (Returned res, w') /\
    modelVersion res = "v2.1.0-mock" /\
    sleeps (events w') = [4000; 2000]%Z.
Proof.
  split; [intros k; reflexivity|]. split; [reflexivity|]. split; [reflexivity|].
  do 2 eexists. split; [vm_compute; reflexivity|].
  split; reflexivity.
Qed.

(** C7, at the failing input: every attempt is answered 502, a request
    failure that is not a rate limit, and the loop waits 2000 ms after
    attempt 0 and 4000 ms after attempt 1, where 1000 * 2^0 = 1000 and
    1000 * 2^1 = 2000 are claimed for a generic failure; each next
    attempt starts once that wait is over.  The reason phrase contains
    the digits 429, so the message built from it passes the loop's test
    for a rate limit.  Against a 500 with a plain reason phrase the
    same loop waits 1000 and 2000 ms, against a 429 it waits 2000 and
    4000 ms. *)
Theorem gateway_error_backs_off_as_rate_limit :
  (forall k, status_of (always_502_naming_429 k) = Some 502%Z) /\
  (forall k, attempt_result (always_502_naming_429 k) =
             Raised (Error "API request failed: 502 Bad Gateway (upstream 429)")) /\
  (1000 * Js.pow2 0 = 1000 /\ 1000 * Js.pow2 1 = 2000)%Z /\
  (exists w',
     retryWithBackoff steady_lag
       (score_attempt steady_lag always_502_naming_429 sample_payment) 3 1000 start_world
     = (Raised (Error "API request failed: 502 Bad Gateway (upstream 429)"), w') /\
     rev (events w') =
       [Fetched 1700000000000; Slept 2000;
        Fetched 1700000002010; Slept 4000;
        Fetched 1700000006020]%Z) /\
  (exists w',
     retryWithBackoff steady_lag
       (score_attempt steady_lag always_500 sample_payment) 3 1000 start_world
     = (Raised (Error "API request failed: 500 Internal Server Error"), w') /\
     rev (events w') =
       [Fetched 1700000000000; Slept 1000;
        Fetched 1700000001010; Slept 2000;
        Fetched 1700000003020]%Z) /\
  (exists w',
     retryWithBackoff steady_lag
       (score_attempt steady_lag always_429 sample_payment) 3 1000 start_world
     = (Raised (Error "429 Too Many Requests - Rate limit exceeded"), w') /\
     rev (events w') =
       [Fetched 1700000000000; Slept 2000;
        Fetched 1700000002010; Slept 4000;
        Fetched 1700000006020]%Z).
Proof.
  split; [intros k; reflexivity|]. split; [intros k; reflexivity|].
  split; [split; reflexivity|].
  split; [|split]; eexists; (split; [vm_compute; reflexivity|]); vm_compute; reflexivity.
Qed.

(** C6, at the failing input: the response carries [flagged: false]
    next to a probability of 0.9, and the result is flagged. *)
Theorem unflagged_response_is_flagged :
  exists res w',
    checkFraud steady_lag steady_random unflagged_high_score sample_payment start_world
    = (Returned res, w') /\
    fraudProbability res = 0.9%Q /\
    modelVersion res = "v3.0.0" /\
    flagged res = true.
Proof.
  do 2 eexists. split; [vm_compute; reflexivity|].
  repeat split.
Qed.

(** * Concrete runs of the further properties *)

Lemma thrown_error_is_not_rate_limit_witness :
  checkFraud steady_lag steady_random always_500 sample_payment start_world
  = (Raised (Error "API request failed: 500 Internal Server Error"),
     after (checkFraud steady_lag steady_random always_500 sample_payment) start_world) /\
  isRateLimitError (Error "API request failed: 500 Internal Server Error") = false /\
  Js.includes "API request failed: 500 Internal Server Error" "429" = false /\
  Js.includes "API request failed: 500 Internal Server Error" "Too Many Requests" = false.
Proof.
  assert (H : checkFraud steady_lag steady_random always_500 sample_payment start_world
              = (Raised (Error "API request failed: 500 Internal Server Error"),
                 after (checkFraud steady_lag steady_random always_500 sample_payment)
                       start_world))
    by (vm_compute; reflexivity).
  split; [exact H|].
  exact (thrown_error_is_not_rate_limit steady_lag steady_random always_500
           sample_payment start_world _ _ H).
Defined.

Lemma returned_result_is_coherent_witness :
  exists res w',
    checkFraud steady_lag steady_random unflagged_high_score sample_payment start_world
    = (Returned res, w') /\
    riskLevel res = getRiskLevel (fraudProbability res) /\
    (Js.gtb (fraudProbability res) 0.5 = true -> flagged res = true) /\
    explanation res <> [] /\
    modelVersion res <> "".
Proof.
  assert (H : exists res w',
             checkFraud steady_lag steady_random unflagged_high_score sample_payment
                        start_world = (Returned res, w'))
    by (vm_compute; do 2 eexists; reflexivity).
  destruct H as [res [w' H]]. exists res, w'. split; [exact H|].
  exact (returned_result_is_coherent steady_lag steady_random unflagged_high_score
           sample_payment start_world w' res H).
Defined.

Lemma second_attempt_payload_is_used_witness :
  attempt_result (fail_then_score (net_pos start_world))
  = Raised (Error "API request failed: 503 Service Unavailable") /\
  (exists res w',
     checkFraud steady_lag steady_random fail_then_score sample_payment start_world
     = (Returned res, w') /\
     fraudProbability res = 0.3%Q /\
     riskLevel res = MEDIUM /\
     modelVersion res = "v2.1.0" /\
     sleeps (events w') = [1000%Z] /\
     fetches (events w') = 2%nat) /\
  (exists w',
     checkFraud steady_lag steady_random fail_then_null sample_payment start_world
     = (Raised (Error "Cannot read properties of null (reading 'fraudProbability')"), w') /\
     sleeps (events w') = [1000%Z] /\
     fetches (events w') = 2%nat).
Proof.
  split; [reflexivity|]. split.
  - destruct (second_attempt_payload_is_used steady_lag steady_random fail_then_score
                sample_payment start_world
                (Error "API request failed: 503 Service Unavailable")
                (JsonObject
                   {| r_fraudProbability := None; r_fraud_probability := Some 0.3%Q;
                      r_flagged := None; r_confidence := None;
                      r_modelVersion := None; r_processingTime := None |})
                eq_refl eq_refl)
      as [o [w' [Hrun [[res [Ho [Hp [Hr [_ Hv]]]]] [Hs Hf]]]]].
    exists res, w'. rewrite Ho in Hrun. split; [exact Hrun|].
    split; [exact Hp|]. split; [exact Hr|]. split; [exact Hv|].
    split; [exact Hs | exact Hf].
  - destruct (second_attempt_payload_is_used steady_lag steady_random fail_then_null
                sample_payment start_world
                (Error "API request failed: 503 Service Unavailable")
                (JsonNull "Cannot read properties of null (reading 'fraudProbability')")
                eq_refl eq_refl)
      as [o [w' [Hrun [Hbody [Hs Hf]]]]].
    assert (Ho : o = Raised (Error "Cannot read properties of null (reading 'fraudProbability')"))
      by exact Hbody.
    exists w'. rewrite Ho in Hrun. split; [exact Hrun|].
    split; [exact Hs | exact Hf].
Defined.

Lemma top_random_binary64 :
  forall k, (0 <= top_random k)%Q /\ (top_random k < 1)%Q /\ Js.binary64 (top_random k).
Proof.
  intros k. unfold top_random, Js.binary64.
  split; [|split]; vm_compute; try reflexivity. discriminate.
Defined.

(** With every draw the largest binary64 number below 1, the weights
    of the origin balances and of the step reach the upper ends of
    their ranges. *)
Lemma returned_weights_in_range_witness :
  (forall k, (0 <= top_random k)%Q /\ (top_random k < 1)%Q /\ Js.binary64 (top_random k)) /\
  exists res w',
    checkFraud steady_lag top_random always_429 sample_payment start_world
    = (Returned res, w') /\
    weights_in_range (featureImportance res) /\
    (fi_oldbalanceOrg (featureImportance res) == Js.lit 0.3)%Q /\
    (fi_step (featureImportance res) == Js.lit 0.15)%Q.
Proof.
  split; [exact top_random_binary64|].
  assert (H : exists res w',
             checkFraud steady_lag top_random always_429 sample_payment
                        start_world = (Returned res, w') /\
             (fi_oldbalanceOrg (featureImportance res) == Js.lit 0.3)%Q /\
             (fi_step (featureImportance res) == Js.lit 0.15)%Q)
    by (do 2 eexists; split; [vm_compute; reflexivity | split; vm_compute; reflexivity]).
  destruct H as [res [w' [H [E1 E2]]]]. exists res, w'. split; [exact H|].
  split; [|split; assumption].
  exact (returned_weights_in_range steady_lag top_random always_429
           sample_payment start_world w' res top_random_binary64 H).
Defined.

Lemma synthesized_records_are_plausible_witness :
  served (history_unreachable (net_pos start_world)) = None /\
  exists h w',
    getTransactionHistory steady_lag steady_random history_unreachable 10 start_world
    = (Returned h, w') /\
    Forall plausible h.
Proof.
  split; [reflexivity|].
  exact (synthesized_records_are_plausible steady_lag steady_random history_unreachable
           10 start_world steady_random_unit eq_refl).
Defined.

Lemma handleAnalyze_rate_limited_witness :
  (forall k, status_of (always_429 k) = Some 429%Z) /\
  exists s w' res,
    handleAnalyze steady_lag steady_random always_429 idle_analyzer start_world
    = (Returned s, w') /\
    a_result s = Some res /\
    modelVersion res = "v2.1.0-mock" /\
    List.hd_error (analysisHistory s) = Some res /\
    rateLimitWarning s = true /\
    a_loading s = false /\
    alerts s = alerts idle_analyzer.
Proof.
  split; [intros k; reflexivity|].
  apply (handleAnalyze_rate_limited steady_lag steady_random always_429
           idle_analyzer start_world).
  intros k. reflexivity.
Defined.

Lemma synthesized_history_fills_bands_witness :
  served (history_unreachable (net_pos start_world)) = None /\
  exists h w',
    getTransactionHistory steady_lag steady_random history_unreachable 100 start_world
    = (Returned h, w') /\
    sumCounts (map ab_range (processAmountDistribution h)) = Z.max 0 100.
Proof.
  split; [reflexivity|].
  exact (synthesized_history_fills_bands steady_lag steady_random history_unreachable
           steady_lag_nonneg 100 start_world steady_random_unit eq_refl).
Defined.


Lemma synthesized_ids_are_distinct_witness :
  served (history_unreachable (net_pos start_world)) = None /\
  exists h w',
    getTransactionHistory steady_lag steady_random history_unreachable 10 start_world
    = (Returned h, w') /\
    NoDup (map h_id h).
Proof.
  split; [reflexivity|].
  exact (synthesized_ids_are_distinct steady_lag steady_random history_unreachable
           10 start_world eq_refl).
Defined.
